(** * Citizen dashboard front end: session store, API facades, dashboard state

    A shallow embedding of [frontend/js/auth.js], [frontend/js/api.js] and
    [frontend/js/citizen-dashboard.js] (with the utility functions the
    dashboard uses), followed by the properties of the specification.

    Conventions of the embedding:
    - a JavaScript value is a [value]; a plain object is its list of own
      properties, and a property read falls back to [Object.prototype] the
      way the language does;
    - records decoded from the backend's JSON (requests, complaints,
      payments, notifications, the login reply) are [record]s;
    - a promise that has settled is an [outcome]; a thrown [Error] is
      represented by its message;
    - [localStorage] and [sessionStorage] are finite maps from keys to
      strings;
    - writes to the DOM, console output and issued requests are recorded as
      [event]s, newest last; the elements the code looks up by id belong to
      the page and are taken to exist;
    - the backend answers in the shape its API documents: a collection is
      an array of objects, a created request or a login reply is an
      object. *)

From Stdlib Require Import Ascii String ZArith.
From stdpp Require Import base strings list gmap pretty.

Open Scope string_scope.

(** ** Strings *)

Module Str.

(** [String.prototype.toLowerCase] on the ASCII range. *)
Definition lower_char (c : ascii) : ascii :=
  let n := Ascii.nat_of_ascii c in
  if (Nat.leb 65 n && Nat.leb n 90)%bool then Ascii.ascii_of_nat (n + 32) else c.

Fixpoint toLowerCase (s : string) : string :=
  match s with
  | EmptyString => EmptyString
  | String c s' => String (lower_char c) (toLowerCase s')
  end.

(** [s.includes(term)] *)
Fixpoint includes (s term : string) : bool :=
  if String.prefix term s then true
  else match s with
       | EmptyString => false
       | String _ s' => includes s' term
       end.

(** [s.split(sep)] for a one-character separator; the result is never
    empty: splitting the empty string gives one empty segment. *)
Fixpoint split (sep : ascii) (s : string) : list string :=
  match s with
  | EmptyString => [EmptyString]
  | String c s' =>
      if Ascii.eqb c sep then EmptyString :: split sep s'
      else match split sep s' with
           | [] => [String c EmptyString]
           | seg :: segs => String c seg :: segs
           end
  end.

Definition is_empty (s : string) : bool :=
  match s with EmptyString => true | _ => false end.

End Str.

(** ** JavaScript values *)

(** Built-in objects a property read can reach through the prototype of a
    plain object. *)
Inductive native : Type :=
| ObjectPrototype               (* [Object.prototype], read as [__proto__] *)
| ObjectCtor                    (* the function [Object], read as [constructor] *)
| ProtoMethod (name : string).  (* a method of [Object.prototype] *)

#[warnings="-register-all"] Inductive value : Type :=
| VUndefined
| VNull
| VBool (b : bool)
| VNum (n : Z)
| VNaN
| VStr (s : string)
| VObj (props : list (string * value))
| VNative (f : native).

(** A decoded JSON object: its own properties. *)
Abbreviation record := (list (string * value)).

Definition truthy (v : value) : bool :=
  match v with
  | VUndefined | VNull | VNaN => false
  | VBool b => b
  | VNum n => negb (Z.eqb n 0)
  | VStr s => negb (Str.is_empty s)
  | VObj _ | VNative _ => true
  end.

(** [a || b] *)
Definition js_or (a b : value) : value := if truthy a then a else b.

Definition native_eqb (f g : native) : bool :=
  match f, g with
  | ObjectPrototype, ObjectPrototype => true
  | ObjectCtor, ObjectCtor => true
  | ProtoMethod m, ProtoMethod n => String.eqb m n
  | _, _ => false
  end.

(** [a === b]. [NaN] differs from itself. Two object values are compared by
    reference; the objects of this development are decoded separately, so
    two of them are never the same reference. *)
Definition strict_eq (a b : value) : bool :=
  match a, b with
  | VUndefined, VUndefined => true
  | VNull, VNull => true
  | VBool x, VBool y => Bool.eqb x y
  | VNum x, VNum y => Z.eqb x y
  | VStr x, VStr y => String.eqb x y
  | VNative f, VNative g => native_eqb f g
  | _, _ => false
  end.

(** [String(v)], which is also [v.toString()] for every value that has the
    method. The decoded records carry no property named [toString], so a
    plain object prints through [Object.prototype.toString]. *)
Definition to_string (v : value) : string :=
  match v with
  | VUndefined => "undefined"
  | VNull => "null"
  | VBool true => "true"
  | VBool false => "false"
  | VNum n => pretty n
  | VNaN => "NaN"
  | VStr s => s
  | VObj _ => "[object Object]"
  | VNative ObjectPrototype => "[object Object]"
  | VNative ObjectCtor => "function Object() { [native code] }"
  | VNative (ProtoMethod m) => "function " ++ m ++ "() { [native code] }"
  end.

(** *** Property reads *)

Fixpoint own_get (props : record) (key : string) : option value :=
  match props with
  | [] => None
  | (k, v) :: rest => if String.eqb k key then Some v else own_get rest key
  end.

Definition object_prototype_methods : list string :=
  [ "__defineGetter__"; "__defineSetter__"; "hasOwnProperty";
    "__lookupGetter__"; "__lookupSetter__"; "isPrototypeOf";
    "propertyIsEnumerable"; "toString"; "valueOf"; "toLocaleString" ].

Definition mem_string (s : string) (l : list string) : bool :=
  existsb (String.eqb s) l.

(** What a plain object inherits: the members of [Object.prototype]. *)
Definition inherited_get (key : string) : value :=
  if String.eqb key "constructor" then VNative ObjectCtor
  else if String.eqb key "__proto__" then VNative ObjectPrototype
  else if mem_string key object_prototype_methods then VNative (ProtoMethod key)
  else VUndefined.

(** [obj[key]] for a plain object [obj]. *)
Definition obj_get (props : record) (key : string) : value :=
  match own_get props key with
  | Some v => v
  | None => inherited_get key
  end.

(** [obj.key = v] on a plain object: overwrite the own property or add it. *)
Fixpoint obj_set (props : record) (key : string) (v : value) : record :=
  match props with
  | [] => [(key, v)]
  | (k, w) :: rest =>
      if String.eqb k key then (k, v) :: rest else (k, w) :: obj_set rest key v
  end.

(** The parts of the host the sources rely on without defining them:
    property reads on primitives and on built-in functions (through their
    wrapper prototypes), [JSON.stringify] and [JSON.parse]. *)
Class Host : Type := {
  host_get : value → string → value;
  JSON_stringify : value → string;
  JSON_parse : string → value + string    (* the value, or the message of the SyntaxError *)
}.

Section Reads.
Context {host : Host}.

(** [obj?.[key]] *)
Definition opt_get (obj : value) (key : string) : value :=
  match obj with
  | VUndefined | VNull => VUndefined
  | VObj props => obj_get props key
  | VNative ObjectPrototype =>
      if String.eqb key "__proto__" then VNull else inherited_get key
  | _ => host_get obj key
  end.

End Reads.

(** ** Utility functions of the dashboard *)

Definition statusMap : record :=
  [ ("SUBMITTED", VStr "Submitted");
    ("UNDER_REVIEW", VStr "Under Review");
    ("UNDER_INVESTIGATION", VStr "Under Investigation");
    ("IN_PROGRESS", VStr "In Progress");
    ("APPROVED", VStr "Approved");
    ("REJECTED", VStr "Rejected");
    ("PAID", VStr "Paid");
    ("COMPLETED", VStr "Completed");
    ("RESOLVED", VStr "Resolved");
    ("CLOSED", VStr "Closed");
    ("PENDING", VStr "Pending");
    ("FAILED", VStr "Failed");
    ("REFUNDED", VStr "Refunded") ].

(** [return statusMap[status] || status;] *)
Definition formatStatus (status : string) : value :=
  js_or (obj_get statusMap status) (VStr status).

Definition classMap : record :=
  [ ("SUBMITTED", VStr "submitted");
    ("UNDER_REVIEW", VStr "under-review");
    ("UNDER_INVESTIGATION", VStr "under-review");
    ("IN_PROGRESS", VStr "under-review");
    ("APPROVED", VStr "approved");
    ("REJECTED", VStr "rejected");
    ("PAID", VStr "paid");
    ("COMPLETED", VStr "completed");
    ("RESOLVED", VStr "completed");
    ("CLOSED", VStr "completed");
    ("PENDING", VStr "submitted");
    ("FAILED", VStr "rejected");
    ("REFUNDED", VStr "submitted") ].

(** [return classMap[status] || 'submitted';] *)
Definition getStatusClass (status : string) : value :=
  js_or (obj_get classMap status) (VStr "submitted").

Section Searching.
Context {host : Host}.

(** [field.split('.').reduce((obj, key) => obj?.[key], item)] *)
Definition resolve_path (item : value) (field : string) : value :=
  fold_left opt_get (Str.split "."%char field) item.

(** The callback given to [fields.some]. *)
Definition field_matches (term : string) (item : value) (field : string) : bool :=
  let value := resolve_path item field in
  truthy value && Str.includes (Str.toLowerCase (to_string value)) term.

(** The callback given to [items.filter]. *)
Definition item_matches (term : string) (fields : list string) (item : record) : bool :=
  existsb (field_matches term (VObj item)) fields.

Definition filterBySearch (items : list record) (searchTerm : string)
    (fields : list string) : list record :=
  if Str.is_empty searchTerm then items
  else
    let term := Str.toLowerCase searchTerm in
    List.filter (item_matches term fields) items.

End Searching.

(** *** [parseInt] *)

Module ParseInt.

Local Open Scope Z_scope.

Definition is_space (c : ascii) : bool :=
  let n := Ascii.nat_of_ascii c in
  (Nat.eqb n 32 || (Nat.leb 9 n && Nat.leb n 13))%bool.

Fixpoint skip_spaces (s : string) : string :=
  match s with
  | String c s' => if is_space c then skip_spaces s' else s
  | EmptyString => s
  end.

Definition digit_of (radix : Z) (c : ascii) : option Z :=
  let n := Z.of_nat (Ascii.nat_of_ascii c) in
  let d := if (48 <=? n) && (n <=? 57) then Some (n - 48)
           else if (97 <=? n) && (n <=? 122) then Some (n - 87)
           else if (65 <=? n) && (n <=? 90) then Some (n - 55)
           else None in
  match d with
  | Some k => if k <? radix then Some k else None
  | None => None
  end.

(** The longest prefix of digits, read in [radix]; [None] when there is
    no digit at all. *)
Fixpoint digits (radix : Z) (s : string) (acc : option Z) : option Z :=
  match s with
  | EmptyString => acc
  | String c s' =>
      match digit_of radix c with
      | Some d => digits radix s' (Some (radix * default 0 acc + d))
      | None => acc
      end
  end.

Definition strip_hex (s : string) : option string :=
  match s with
  | String "0" (String "x" s') | String "0" (String "X" s') => Some s'
  | _ => None
  end.

(** [parseInt(s)] with no radix argument; [None] is [NaN]. *)
Definition parseInt (s : string) : option Z :=
  let s1 := skip_spaces s in
  let '(negative, s2) :=
    match s1 with
    | String "-" r => (true, r)
    | String "+" r => (false, r)
    | _ => (false, s1)
    end in
  let magnitude :=
    match strip_hex s2 with
    | Some r => digits 16 r None
    | None => digits 10 s2 None
    end in
  (λ m, if negative then - m else m) <$> magnitude.

End ParseInt.

(** ** Settled promises *)

(** How an awaited call ended. A facade call ends as [apiRequest] decides:
    resolved with the decoded body of a successful answer, rejected with a
    message for any other answer and for a failed transfer. *)

Inductive outcome (A : Type) : Type :=
| Resolved (a : A)
| Rejected (message : string).
Arguments Resolved {A} a.
Arguments Rejected {A} message.

(** [p.catch(handler)] *)
Definition catch_with {A} (p : outcome A) (handler : string → A) : outcome A :=
  match p with
  | Resolved a => Resolved a
  | Rejected message => Resolved (handler message)
  end.

(** [Promise.all([a, b, c, d])]: resolves with the four results, or rejects
    with the first rejection. *)
Definition Promise_all4 {A} (a b c d : outcome A) : outcome (A * A * A * A) :=
  match a, b, c, d with
  | Resolved x, Resolved y, Resolved z, Resolved w => Resolved (x, y, z, w)
  | Rejected m, _, _, _ => Rejected m
  | _, Rejected m, _, _ => Rejected m
  | _, _, Rejected m, _ => Rejected m
  | _, _, _, Rejected m => Rejected m
  end.

(** ** Session store ([auth.js]) *)

Record browser : Type := {
  localStorage : gmap string string;
  sessionStorage : gmap string string;
  origin : string;      (* [window.location.origin] *)
  href : string         (* [window.location.href] *)
}.

(** [a || b] on what [getItem] returns ([None] is [null]). *)
Definition item_or (a b : option string) : option string :=
  match a with
  | Some s => if Str.is_empty s then b else Some s
  | None => b
  end.

Definition getAuthToken (w : browser) : option string :=
  item_or (localStorage w !! "access_token") (sessionStorage w !! "access_token").

Definition local_setItem (key text : string) (w : browser) : browser :=
  {| localStorage := <[key := text]> (localStorage w);
     sessionStorage := sessionStorage w; origin := origin w; href := href w |}.

Definition session_setItem (key text : string) (w : browser) : browser :=
  {| localStorage := localStorage w;
     sessionStorage := <[key := text]> (sessionStorage w);
     origin := origin w; href := href w |}.

Definition local_removeItem (key : string) (w : browser) : browser :=
  {| localStorage := delete key (localStorage w);
     sessionStorage := sessionStorage w; origin := origin w; href := href w |}.

Definition session_removeItem (key : string) (w : browser) : browser :=
  {| localStorage := localStorage w;
     sessionStorage := delete key (sessionStorage w);
     origin := origin w; href := href w |}.

Definition set_href (url : string) (w : browser) : browser :=
  {| localStorage := localStorage w; sessionStorage := sessionStorage w;
     origin := origin w; href := url |}.

(** [setItem] stores the string form of its argument. *)
Definition setAuthToken (token : value) (remember : bool) (w : browser) : browser :=
  let w1 := if remember then local_setItem "access_token" (to_string token) w else w in
  session_setItem "access_token" (to_string token) w1.

Definition clearAuthToken (w : browser) : browser :=
  session_removeItem "userData"
    (local_removeItem "userData"
       (session_removeItem "access_token"
          (local_removeItem "access_token" w))).

Section Auth.
Context {host : Host}.

Definition setUserData (userData : value) (remember : bool) (w : browser) : browser :=
  let dataString := JSON_stringify userData in
  let w1 := if remember then local_setItem "userData" dataString w else w in
  session_setItem "userData" dataString w1.

(** The projection of the login reply kept as user data. *)
Definition user_projection (data : record) : value :=
  VObj [ ("user_id", obj_get data "user_id");
         ("email", obj_get data "email");
         ("role", obj_get data "role") ].

(** [login(email, password, remember)], given how [AuthAPI.login] settles. *)
Definition login (reply : outcome record) (remember : bool) (w : browser)
  : outcome record * browser :=
  match reply with
  | Resolved data =>
      let w1 := setAuthToken (obj_get data "access_token") remember w in
      let w2 := setUserData (user_projection data) remember w1 in
      (Resolved data, w2)
  | Rejected message => (Rejected message, w)
  end.

Definition getUserData (w : browser) : outcome value :=
  match item_or (localStorage w !! "userData") (sessionStorage w !! "userData") with
  | Some data =>
      match JSON_parse data with
      | inl v => Resolved v
      | inr message => Rejected message
      end
  | None => Resolved VNull
  end.

(** [register(userData)], given how [AuthAPI.register] settles. *)
Definition register (reply : outcome record) (w : browser)
  : outcome record * browser :=
  match reply with
  | Resolved data =>
      let w1 := setAuthToken (obj_get data "access_token") true w in
      let w2 := setUserData (user_projection data) true w1 in
      (Resolved data, w2)
  | Rejected message => (Rejected message, w)
  end.

End Auth.

Definition isAuthenticated (w : browser) : bool :=
  match getAuthToken w with
  | Some s => negb (Str.is_empty s)
  | None => false
  end.

(** [logout()], given the answer to the confirmation dialog. *)
Definition logout (confirmed : bool) (w : browser) : browser :=
  if confirmed then set_href "/frontend/citizen/auth.html" (clearAuthToken w) else w.

(** ** Request construction ([api.js]) *)

Inductive req_body : Type :=
| JsonBody (data : value)                      (* [JSON.stringify(data)] *)
| FormBody (fields : list (string * string))   (* [new URLSearchParams(formData)] *)
| MultipartBody (field file : string).         (* a [FormData] with one file *)

(** The [options] argument of [apiRequest] and the [config] given to
    [fetch]. *)
Record options : Type := {
  method : option string;
  headers : gmap string string;
  body : option req_body
}.

Record fetch_call : Type := { url : string; config : options }.

(** The arguments of one [apiRequest] call. *)
Record api_call : Type := { endpoint : string; opts : options }.

Definition API_BASE_URL (w : browser) : string :=
  if Str.is_empty (origin w) then "http://localhost:8000/api" else origin w ++ "/api".

(** The [fetch] that [apiRequest(endpoint, options)] issues: the default
    headers, overridden by the caller's. *)
Definition apiRequest (c : api_call) (w : browser) : fetch_call :=
  let defaultHeaders : gmap string string :=
    match getAuthToken w with
    | Some token =>
        if Str.is_empty token then {["Content-Type" := "application/json"]}
        else <["Authorization" := "Bearer " ++ token]>
               {["Content-Type" := "application/json"]}
    | None => {["Content-Type" := "application/json"]}
    end in
  {| url := API_BASE_URL w ++ endpoint c;
     config := {| method := method (opts c);
                  headers := headers (opts c) ∪ defaultHeaders;
                  body := body (opts c) |} |}.

Definition apiGet (endpoint : string) : api_call :=
  {| endpoint := endpoint;
     opts := {| method := Some "GET"; headers := ∅; body := None |} |}.

Definition apiPost (endpoint : string) (data : value) : api_call :=
  {| endpoint := endpoint;
     opts := {| method := Some "POST"; headers := ∅; body := Some (JsonBody data) |} |}.

Definition apiPut (endpoint : string) (data : value) : api_call :=
  {| endpoint := endpoint;
     opts := {| method := Some "PUT"; headers := ∅; body := Some (JsonBody data) |} |}.

Definition apiPostForm (endpoint : string) (formData : list (string * string)) : api_call :=
  {| endpoint := endpoint;
     opts := {| method := Some "POST";
                headers := {["Content-Type" := "application/x-www-form-urlencoded"]};
                body := Some (FormBody formData) |} |}.

Module AuthAPI.
Definition login (email password : string) : api_call :=
  apiPost "/auth/login" (VObj [("email", VStr email); ("password", VStr password)]).
Definition register (userData : value) : api_call := apiPost "/auth/register" userData.
Definition getCurrentUser : api_call := apiGet "/auth/me".
End AuthAPI.

Module CitizenAPI.
Definition getProfile : api_call := apiGet "/citizens/me".
Definition updateProfile (data : value) : api_call := apiPut "/citizens/me" data.
End CitizenAPI.

Module RequestAPI.
Definition getMyRequests : api_call := apiGet "/requests/my-requests".
Definition create (data : value) : api_call := apiPost "/requests/" data.
End RequestAPI.

Module ComplaintAPI.
Definition getMyComplaints : api_call := apiGet "/complaints/my-complaints".
End ComplaintAPI.

Module PaymentAPI.
Definition getMyPayments : api_call := apiGet "/payments/my-payments".
End PaymentAPI.

Module FeedbackAPI.
Definition create (data : value) : api_call := apiPost "/feedbacks/" data.
End FeedbackAPI.

Module NotificationAPI.
Definition getMyNotifications (unreadOnly : bool) : api_call :=
  apiGet ("/notifications/my-notifications?unread_only=" ++ to_string (VBool unreadOnly)).
Definition markAsRead (id : value) : api_call :=
  apiPut ("/notifications/" ++ to_string id ++ "/read") (VObj []).
End NotificationAPI.

Module FileAPI.
(** The upload does not go through [apiRequest]: it calls [fetch] with a
    multipart body and only the bearer header. *)
Definition uploadRequestFile (requestId : value) (file : string) (w : browser) : fetch_call :=
  {| url := API_BASE_URL w ++ "/files/requests/" ++ to_string requestId ++ "/upload";
     config := {| method := Some "POST";
                  headers := {["Authorization" :=
                                 "Bearer " ++ default "null" (getAuthToken w)]};
                  body := Some (MultipartBody "file" file) |} |}.
End FileAPI.

(** ** Dashboard state ([citizen-dashboard.js]) *)

Module Filters.
Record t : Type := {
  requests : string;
  complaints : string;
  payments : string;
  notifications : string
}.
End Filters.

Record dash_state : Type := {
  currentTab : string;
  requests : list record;
  complaints : list record;
  payments : list record;
  notifications : list record;
  profile : value;
  filters : Filters.t
}.

Definition initial_state : dash_state :=
  {| currentTab := "dashboard";
     requests := []; complaints := []; payments := []; notifications := [];
     profile := VNull;
     filters := {| Filters.requests := "all"; Filters.complaints := "all";
                   Filters.payments := "all"; Filters.notifications := "all" |} |}.

Definition set_requests (l : list record) (s : dash_state) : dash_state :=
  {| currentTab := currentTab s; requests := l; complaints := complaints s;
     payments := payments s; notifications := notifications s;
     profile := profile s; filters := filters s |}.

Definition set_notifications (l : list record) (s : dash_state) : dash_state :=
  {| currentTab := currentTab s; requests := requests s; complaints := complaints s;
     payments := payments s; notifications := l;
     profile := profile s; filters := filters s |}.

Definition set_filters (f : Filters.t) (s : dash_state) : dash_state :=
  {| currentTab := currentTab s; requests := requests s; complaints := complaints s;
     payments := payments s; notifications := notifications s;
     profile := profile s; filters := f |}.

(** The callbacks handed to [setTimeout]. *)
Inductive timer : Type :=
| ReloadRequests     (* scheduled by [handleNewRequest] *)
| FeedbackDone.      (* scheduled by [handleFeedback] *)

Inductive event : Type :=
| Requested (c : api_call)                      (* [apiRequest] was called *)
| Uploaded (requestId : value) (file : string)  (* [FileAPI.uploadRequestFile] was called *)
| SetText (id text : string)                    (* [element.textContent = text] *)
| SetRows (id : string) (rows : list record)    (* [container.innerHTML], one row per record *)
| EmptyState (id message : string)
| LoadingShown (id : string)
| LoadingHidden
| ConsoleLog (text : string)
| ConsoleError (text : string)
| Message (text kind : string)                  (* [showMessage] *)
| ElementMessage (id text kind : string)        (* [showElementMessage] *)
| SubmitButton (disabled : bool) (text : string)
| ModalClosed (id : string)
| FormReset (id : string)
| ValueSet (id text : string).                  (* [input.value = text] *)

(** The page: the dashboard's [state], what it has done so far, and the
    timers waiting to fire. *)
Record page : Type := {
  state : dash_state;
  events : list event;
  pending : list (timer * Z)
}.

(** *** Handlers as state transformers that may throw *)

Definition M (A : Type) : Type := page → outcome A * page.

#[global] Instance M_ret : MRet M := λ A a p, (Resolved a, p).

#[global] Instance M_bind : MBind M := λ A B f m p,
  match m p with
  | (Resolved a, p') => f a p'
  | (Rejected message, p') => (Rejected message, p')
  end.

Definition throw {A} (message : string) : M A := λ p, (Rejected message, p).

Definition await {A} (o : outcome A) : M A := λ p, (o, p).

(** [try { body } catch (error) { handler(error.message) }] *)
Definition try_catch {A} (body : M A) (handler : string → M A) : M A := λ p,
  match body p with
  | (Resolved a, p') => (Resolved a, p')
  | (Rejected message, p') => handler message p'
  end.

(** [try { body } finally { final }] *)
Definition try_finally {A} (body : M A) (final : M unit) : M A := λ p,
  match body p with
  | (o, p') =>
      match final p' with
      | (Resolved _, p'') => (o, p'')
      | (Rejected message, p'') => (Rejected message, p'')
      end
  end.

Definition emit (e : event) : M unit := λ p,
  (Resolved (), {| state := state p; events := events p ++ [e]; pending := pending p |}).

Definition read : M dash_state := λ p, (Resolved (state p), p).

Definition modify (f : dash_state → dash_state) : M unit := λ p,
  (Resolved (), {| state := f (state p); events := events p; pending := pending p |}).

Definition setTimeout (t : timer) (delay : Z) : M unit := λ p,
  (Resolved (), {| state := state p; events := events p;
                   pending := pending p ++ [(t, delay)] |}).

(** An API facade call: the request goes out, then the promise settles. *)
Definition call {A} (c : api_call) (reply : outcome A) : M A :=
  emit (Requested c);; await reply.

(** What the search boxes hold when a render function reads them. *)
Record search_inputs : Type := {
  request_search : string;
  complaint_search : string;
  payment_search : string
}.

Section Dashboard.
Context {host : Host}.

(** *** Derived views *)

(** [r => r.status === filter] *)
Definition status_is (token : string) (r : record) : bool :=
  strict_eq (obj_get r "status") (VStr token).

(** The [// Filter] step of the render functions. *)
Definition by_status (token : string) (collection : list record) : list record :=
  if String.eqb token "all" then collection
  else List.filter (status_is token) collection.

(** The [// Search] step: [searchTerm] is the lower-cased content of the
    search box, and the search is skipped when it is empty. *)
Definition by_search (fields : list string) (searchTerm : string)
    (collection : list record) : list record :=
  if Str.is_empty searchTerm then collection
  else filterBySearch collection searchTerm fields.

(** The list a render function displays. *)
Definition derived_view (fields : list string) (token box : string)
    (collection : list record) : list record :=
  let searchTerm := Str.toLowerCase box in
  by_search fields searchTerm (by_status token collection).

Definition request_fields : list string := ["request_type"; "description"; "status"].
Definition complaint_fields : list string := ["title"; "category"; "description"; "status"].
Definition payment_fields : list string := ["payment_method"; "status"].

Definition show_list (id message : string) (filtered : list record) : M unit :=
  match filtered with
  | [] => emit (EmptyState id message)
  | _ => emit (SetRows id filtered)
  end.

Definition renderRequests (dom : search_inputs) : M unit :=
  s ← read;
  show_list "requests-list" "No requests found"
    (derived_view request_fields (Filters.requests (filters s))
       (request_search dom) (requests s)).

Definition renderComplaints (dom : search_inputs) : M unit :=
  s ← read;
  show_list "complaints-list" "No complaints found"
    (derived_view complaint_fields (Filters.complaints (filters s))
       (complaint_search dom) (complaints s)).

Definition renderPayments (dom : search_inputs) : M unit :=
  s ← read;
  show_list "payments-list" "No payments found"
    (derived_view payment_fields (Filters.payments (filters s))
       (payment_search dom) (payments s)).

Definition is_read (n : record) : bool := truthy (obj_get n "is_read").

Definition renderNotifications : M unit :=
  s ← read;
  let token := Filters.notifications (filters s) in
  let filtered :=
    if String.eqb token "unread" then List.filter (λ n, negb (is_read n)) (notifications s)
    else if String.eqb token "read" then List.filter is_read (notifications s)
    else notifications s in
  show_list "notifications-container" "No notifications" filtered.

Definition count_of (l : list record) : string := pretty (Z.of_nat (length l)).

Definition updateWelcome : M unit :=
  s ← read;
  if truthy (profile s) then
    let name := js_or (opt_get (profile s) "first_name") (opt_get (profile s) "email") in
    emit (SetText "welcome-name" ("Welcome back, " ++ to_string name ++ "!"))
  else mret ().

Definition updateSummaryCards : M unit :=
  s ← read;
  let pendingRequests :=
    List.filter (λ r, status_is "SUBMITTED" r || status_is "UNDER_REVIEW" r) (requests s) in
  emit (SetText "summary-requests" (count_of (requests s)));;
  emit (SetText "summary-requests-detail" (count_of pendingRequests ++ " pending"));;
  let pendingComplaints :=
    List.filter (λ c, status_is "SUBMITTED" c || status_is "UNDER_INVESTIGATION" c)
      (complaints s) in
  emit (SetText "summary-complaints" (count_of (complaints s)));;
  emit (SetText "summary-complaints-detail" (count_of pendingComplaints ++ " pending"));;
  let completedPayments := List.filter (status_is "COMPLETED") (payments s) in
  emit (SetText "summary-payments" (count_of (payments s)));;
  emit (SetText "summary-payments-detail"
          (match completedPayments with
           | [] => "No payments yet"
           | _ => count_of completedPayments ++ " completed"
           end));;
  let unreadNotifications := List.filter (λ n, negb (is_read n)) (notifications s) in
  emit (SetText "summary-notifications" (count_of (notifications s)));;
  emit (SetText "summary-notifications-detail" (count_of unreadNotifications ++ " unread"));;
  emit (SetText "notif-badge" (count_of unreadNotifications)).

(** *** Filter buttons *)

Definition filterRequests (status : string) (dom : search_inputs) : M unit :=
  modify (λ s, set_filters
    {| Filters.requests := status;
       Filters.complaints := Filters.complaints (filters s);
       Filters.payments := Filters.payments (filters s);
       Filters.notifications := Filters.notifications (filters s) |} s);;
  renderRequests dom.

(** *** Data loading *)

(** [loadDashboardData()], given the session store it reads the cached user
    from and how the five facade calls settle. *)
Definition loadDashboardData (w : browser) (dom : search_inputs)
    (profile_reply : outcome value)
    (requests_reply complaints_reply payments_reply notifications_reply
       : outcome (list record)) : M unit :=
  emit (LoadingShown "content-container");;
  try_finally
    (try_catch
       (userData ← await (getUserData w);
        let cached := VObj [("email", js_or (opt_get userData "email") (VStr "User"))] in
        profile ← try_catch
          (call CitizenAPI.getProfile profile_reply)
          (λ message,
             emit (ConsoleLog ("Profile fetch failed (expected for swapped roles): "
                               ++ message));;
             mret cached);
        emit (Requested RequestAPI.getMyRequests);;
        emit (Requested ComplaintAPI.getMyComplaints);;
        emit (Requested PaymentAPI.getMyPayments);;
        emit (Requested (NotificationAPI.getMyNotifications false));;
        loaded ← await (Promise_all4
                          (catch_with requests_reply (λ _, []))
                          (catch_with complaints_reply (λ _, []))
                          (catch_with payments_reply (λ _, []))
                          (catch_with notifications_reply (λ _, [])));
        let '(requests, complaints, payments, notifications) := loaded in
        (* an array is truthy, so [requests || []] is [requests] *)
        modify (λ s, {| currentTab := currentTab s;
                        requests := requests; complaints := complaints;
                        payments := payments; notifications := notifications;
                        profile := profile; filters := filters s |});;
        updateWelcome;;
        updateSummaryCards;;
        renderRequests dom;;
        renderComplaints dom;;
        renderPayments dom;;
        renderNotifications)
       (λ message,
          emit (ConsoleError ("Error loading dashboard data: " ++ message));;
          emit (Message ("Failed to load dashboard data: " ++ message) "error")))
    (emit LoadingHidden).

(** *** Notifications *)

(** [markNotificationRead(notificationId)], given how
    [NotificationAPI.markAsRead] settles. *)
Definition markNotificationRead (notificationId : value) (reply : outcome value) : M unit :=
  try_catch
    (_ ← call (NotificationAPI.markAsRead notificationId) reply;
     s ← read;
     match list_find (λ n, strict_eq (obj_get n "notification_id") notificationId = true)
                     (notifications s) with
     | Some (i, notif) =>
         modify (set_notifications
                   (<[i := obj_set notif "is_read" (VBool true)]> (notifications s)));;
         updateSummaryCards;;
         renderNotifications
     | None => mret ()
     end)
    (λ message, emit (ConsoleError ("Error marking notification as read: " ++ message))).

(** *** Form submissions *)

(** [handleNewRequest(e)], given the form's fields, the selected file if
    any, and how the creation and the upload settle. *)
Definition handleNewRequest (request_type description : string)
    (attachment : option string)
    (create_reply : outcome record) (upload_reply : outcome value) : M unit :=
  let requestData :=
    VObj [("request_type", VStr request_type); ("description", VStr description)] in
  emit (SubmitButton true "Submitting...");;
  try_finally
    (try_catch
       (newRequest ← call (RequestAPI.create requestData) create_reply;
        match attachment with
        | Some file =>
            emit (Uploaded (obj_get newRequest "request_id") file);;
            _ ← await upload_reply; mret ()
        | None => mret ()
        end;;
        emit (ElementMessage "request-modal-message" "Request submitted successfully!" "success");;
        setTimeout ReloadRequests 1500)
       (λ message, emit (ElementMessage "request-modal-message" message "error")))
    (emit (SubmitButton false "Submit Request")).

(** The callback [handleNewRequest] schedules, given how the refetch
    settles. *)
Definition reloadRequests (dom : search_inputs) (refetch_reply : outcome (list record))
  : M unit :=
  emit (ModalClosed "new-request-modal");;
  emit (FormReset "new-request-form");;
  fetched ← call RequestAPI.getMyRequests refetch_reply;
  modify (set_requests fetched);;
  updateSummaryCards;;
  renderRequests dom;;
  emit (Message "Request submitted successfully!" "success").

(** [parseInt] gives a number or [NaN]. *)
Definition number (n : option Z) : value :=
  match n with Some k => VNum k | None => VNaN end.

(** [handleFeedback(e)], given the form's fields and how
    [FeedbackAPI.create] settles. *)
Definition handleFeedback (rating_input feedback_type comment : string)
    (reply : outcome value) : M unit :=
  let rating := number (ParseInt.parseInt rating_input) in
  if strict_eq rating (VNum 0) then
    emit (ElementMessage "feedback-modal-message" "Please select a rating" "error")
  else
    let feedbackData :=
      VObj [("rating", rating); ("feedback_type", VStr feedback_type);
            ("comment", VStr comment)] in
    emit (SubmitButton true "Submitting...");;
    try_finally
      (try_catch
         (_ ← call (FeedbackAPI.create feedbackData) reply;
          emit (ElementMessage "feedback-modal-message" "Thank you for your feedback!" "success");;
          setTimeout FeedbackDone 1500)
         (λ message, emit (ElementMessage "feedback-modal-message" message "error")))
      (emit (SubmitButton false "Submit Feedback")).

(** The callback [handleFeedback] schedules. *)
Definition feedbackDone : M unit :=
  emit (ModalClosed "feedback-modal");;
  emit (FormReset "feedback-form");;
  emit (ValueSet "feedback-rating-input" "0");;
  emit (Message "Feedback submitted successfully!" "success").

(** *** Timers *)

Definition run_timer (dom : search_inputs) (refetch_reply : outcome (list record))
    (t : timer) : M unit :=
  match t with
  | ReloadRequests => reloadRequests dom refetch_reply
  | FeedbackDone => feedbackDone
  end.

(** Let the waiting timers fire, in the order they were set. A callback
    that throws leaves its effects so far and does not stop the others. *)
Definition fire_pending (dom : search_inputs) (refetch_reply : outcome (list record))
    (p : page) : page :=
  fold_left (λ q t, snd (run_timer dom refetch_reply (fst t) q))
            (pending p)
            {| state := state p; events := events p; pending := [] |}.

End Dashboard.

(** The API calls recorded in a trace. *)
Definition is_network (e : event) : bool :=
  match e with
  | Requested _ | Uploaded _ _ => true
  | _ => false
  end.

Definition network_calls (p : page) : list event := List.filter is_network (events p).

(** ** What the specification's words mean on this model *)

(** The collection a settled fetch leaves in the state: the fetched data,
    or the empty list when the fetch failed. *)
Definition fetched_or_empty (reply : outcome (list record)) : list record :=
  match reply with
  | Resolved l => l
  | Rejected _ => []
  end.

(** An event that tells the user or the console about an error. *)
Definition signals_error (e : event) : bool :=
  match e with
  | ConsoleError _ => true
  | Message _ kind | ElementMessage _ _ kind => String.eqb kind "error"
  | _ => false
  end.

(** Marking as read, in the specification's words: the first cached
    notification with the given id gets its flag set, nothing else moves. *)
Fixpoint mark_first_read (id : value) (l : list record) : list record :=
  match l with
  | [] => []
  | n :: rest =>
      if strict_eq (obj_get n "notification_id") id
      then obj_set n "is_read" (VBool true) :: rest
      else n :: mark_first_read id rest
  end.

(** The upload [handleNewRequest] starts when a file was chosen. *)
Definition uploads (attachment : option string) (created : record) : list event :=
  match attachment with
  | Some file => [Uploaded (obj_get created "request_id") file]
  | None => []
  end.

(** ** Sample data *)

(** A host whose primitives carry no properties; the examples below never
    read one. *)
Definition bare_host : Host :=
  {| host_get := λ _ _, VUndefined;
     JSON_stringify := λ v, to_string v;
     JSON_parse := λ _, inl VNull |}.

Definition fresh_browser : browser :=
  {| localStorage := ∅; sessionStorage := ∅;
     origin := "https://city.example"; href := "/frontend/citizen/dashboard.html" |}.

Definition fresh_page : page :=
  {| state := initial_state; events := []; pending := [] |}.

Definition empty_boxes : search_inputs :=
  {| request_search := ""; complaint_search := ""; payment_search := "" |}.

(** A browser in which an old remembered token sits next to a newer
    session token. *)
Definition stale_browser : browser :=
  {| localStorage := {["access_token" := "old-token"]};
     sessionStorage := {["access_token" := "new-token"]};
     origin := "https://city.example"; href := "/frontend/citizen/dashboard.html" |}.

Definition sample_payment : record :=
  [("payment_id", VNum 12); ("payment_method", VStr "card"); ("status", VStr "COMPLETED")].

Definition sample_request : record :=
  [("request_id", VNum 7); ("request_type", VStr "Permit"); ("status", VStr "SUBMITTED")].

Definition unread_notice : record :=
  [("notification_id", VNum 3); ("title", VStr "Request approved"); ("is_read", VBool false)].

Definition notified_page : page :=
  {| state := set_notifications [unread_notice] initial_state; events := []; pending := [] |}.

(** ** Reasoning about handlers *)

Definition quiet (l : list event) : Prop := Forall (λ e, signals_error e = false) l.

Definition offline (l : list event) : Prop := Forall (λ e, is_network e = false) l.

(** [grown p s added]: the page [p] after its dashboard state became [s]
    and [added] was appended to what it has done. *)
Definition grown (p : page) (s : dash_state) (added : list event) : page :=
  {| state := s; events := events p ++ added; pending := pending p |}.

(** A computation that only displays: it returns, leaves the dashboard state
    and the timers alone, reports no error and calls no API. *)
Definition display (m : M unit) : Prop :=
  ∀ p, ∃ added,
    m p = (Resolved (), grown p (state p) added) ∧ quiet added ∧ offline added.

(** [performs m p a s]: run from page [p], the computation [m] returns [a],
    leaves the dashboard state [s], reports no error and sets no timer. *)
Definition performs {A} (m : M A) (p : page) (a : A) (s : dash_state) : Prop :=
  ∃ added, m p = (Resolved a, grown p s added) ∧ quiet added.

Section Loaded.
Context {host : Host}.

(** The profile the dashboard keeps after loading: the fetched one, or one
    made from the cached user's email. *)
Definition loaded_profile (userData : value) (profile_reply : outcome value) : value :=
  match profile_reply with
  | Resolved fetched => fetched
  | Rejected _ => VObj [("email", js_or (opt_get userData "email") (VStr "User"))]
  end.

Definition loaded_state (userData : value) (profile_reply : outcome value)
    (requests_reply complaints_reply payments_reply notifications_reply
       : outcome (list record)) (s : dash_state) : dash_state :=
  {| currentTab := currentTab s;
     requests := fetched_or_empty requests_reply;
     complaints := fetched_or_empty complaints_reply;
     payments := fetched_or_empty payments_reply;
     notifications := fetched_or_empty notifications_reply;
     profile := loaded_profile userData profile_reply;
     filters := filters s |}.

End Loaded.

(** ** The rest of the session store ([auth.js]) *)

(** [o || fallback] on what [getItem] returns or on an optional argument. *)
Definition or_default (o : option string) (fallback : string) : string :=
  match o with
  | Some s => if Str.is_empty s then fallback else s
  | None => fallback
  end.

(** [requireAuth(redirectUrl)]; [here] is
    [window.location.pathname + window.location.search]. *)
Definition requireAuth (redirectUrl : option string) (here : string) (w : browser)
  : bool * browser :=
  if negb (isAuthenticated w) then
    let returnUrl := or_default redirectUrl here in
    (false, set_href "/frontend/citizen/auth.html" (session_setItem "returnUrl" returnUrl w))
  else (true, w).

Definition getReturnUrl (w : browser) : string * browser :=
  let returnUrl := sessionStorage w !! "returnUrl" in
  (or_default returnUrl "/frontend/citizen/dashboard.html",
   session_removeItem "returnUrl" w).

Section Roles.
Context {host : Host}.

(** [hasRole(requiredRole)]: [userData && userData.role === requiredRole]. *)
Definition hasRole (requiredRole : string) (w : browser) : outcome value :=
  match getUserData w with
  | Resolved userData =>
      Resolved (if truthy userData
                then VBool (strict_eq (opt_get userData "role") (VStr requiredRole))
                else userData)
  | Rejected message => Rejected message
  end.

(** [requireRole(requiredRole, redirectUrl)]: the result, the browser
    afterwards and the alerts shown. *)
Definition requireRole (requiredRole redirectUrl here : string) (w : browser)
  : outcome bool * browser * list string :=
  let '(authenticated, w1) := requireAuth None here w in
  if negb authenticated then (Resolved false, w1, [])
  else
    match hasRole requiredRole w1 with
    | Rejected message => (Rejected message, w1, [])
    | Resolved allowed =>
        if negb (truthy allowed) then
          (Resolved false, set_href redirectUrl w1,
           ["Access denied. This page is for " ++ requiredRole ++ "s only."])
        else (Resolved true, w1, [])
    end.

(** [getCurrentUser()], given how [AuthAPI.getCurrentUser] settles. *)
Definition getCurrentUser (reply : outcome record) (w : browser) : outcome value * browser :=
  match reply with
  | Resolved data =>
      let userData :=
        VObj [ ("user_id", obj_get data "user_id");
               ("email", obj_get data "email");
               ("role", obj_get data "role");
               ("profile", js_or (obj_get data "profile") (VObj [])) ] in
      (Resolved userData, setUserData userData true w)
  | Rejected message =>
      if Str.includes message "401" || Str.includes message "Session expired"
      then (Rejected message, set_href "/frontend/citizen/auth.html" (clearAuthToken w))
      else (Rejected message, w)
  end.

(** [initAuth()]: the result, the browser afterwards and the requests
    made. *)
Definition initAuth (reply : outcome record) (w : browser)
  : bool * browser * list api_call :=
  if isAuthenticated w then
    match getCurrentUser reply w with
    | (Resolved _, w1) => (true, w1, [AuthAPI.getCurrentUser])
    | (Rejected _, w1) => (false, clearAuthToken w1, [AuthAPI.getCurrentUser])
    end
  else (false, w, []).

End Roles.

(** ** Answers ([api.js]) *)

(** The [detail] of an error body: a text, a list of error entries (each
    entry seen through the members it has), or anything else (absent
    included). *)
Inductive error_detail : Type :=
| DetailText (text : string)
| DetailList (entries : list record)
| DetailOther.

(** The decoded body of an answer that is not a success, seen through the
    two members [apiRequest] reads: its [detail] and its [message]. *)
Record error_body : Type := {
  detail : error_detail;
  message : value
}.

(** What came back for a [fetch]. *)
Inductive http_answer (A : Type) : Type :=
| TransferFailed (reason : string)              (* [fetch] itself rejected *)
| Garbled (reason : string)                     (* [response.json()] threw *)
| Fulfilled (data : A)                          (* [response.ok], decoded *)
| Refused (status : Z) (data : error_body)      (* not [response.ok], decoded *)
| Unreadable (status : Z) (complaint : string). (* not [response.ok], decoded to
                                                   [null] or with a [null] entry in
                                                   its detail list: reading a member
                                                   of it throws [complaint] *)
Arguments TransferFailed {A} reason.
Arguments Garbled {A} reason.
Arguments Fulfilled {A} data.
Arguments Refused {A} status data.
Arguments Unreadable {A} status complaint.

(** [response.status] of a decoded answer that is not [response.ok]. *)
Definition refused_status {A} (answer : http_answer A) : option Z :=
  match answer with
  | Refused status _ | Unreadable status _ => Some status
  | _ => None
  end.

(** One element of [array.join(sep)]: [undefined] and [null] give the empty
    string. *)
Definition join_item (v : value) : string :=
  match v with
  | VUndefined | VNull => ""
  | _ => to_string v
  end.

(** [items.join(sep)] *)
Fixpoint join (sep : string) (items : list string) : string :=
  match items with
  | [] => ""
  | [x] => x
  | x :: rest => x ++ sep ++ join sep rest
  end.

(** The [// Extract error message] step of [apiRequest]. *)
Definition error_message (data : error_body) : string :=
  match detail data with
  | DetailText text => text
  | DetailList entries =>
      join ", " (map (λ err, join_item (js_or (obj_get err "msg") (obj_get err "message")))
                     entries)
  | DetailOther =>
      if truthy (message data) then to_string (message data) else "Request failed"
  end.

(** What [apiRequest] does with the answer: how the promise settles and
    what becomes of the browser. *)
Definition apiRequest_settle {A} (answer : http_answer A) (w : browser)
  : outcome A * browser :=
  let attempt : outcome A * browser :=
    match answer with
    | TransferFailed reason => (Rejected reason, w)
    | Garbled reason => (Rejected reason, w)
    | Fulfilled data => (Resolved data, w)
    | Refused status data =>
        if Z.eqb status 401 then
          (Rejected "Session expired. Please login again.",
           set_href "/frontend/citizen/auth.html" (clearAuthToken w))
        else (Rejected (error_message data), w)
    | Unreadable status complaint =>
        if Z.eqb status 401 then
          (Rejected "Session expired. Please login again.",
           set_href "/frontend/citizen/auth.html" (clearAuthToken w))
        else (Rejected complaint, w)
    end in
  match attempt with
  | (Rejected reason, w') =>
      if String.eqb reason "Failed to fetch"
      then (Rejected "Cannot connect to server. Please check your connection.", w')
      else (Rejected reason, w')
  | settled => settled
  end.

(** ** The other filter buttons and the tabs ([citizen-dashboard.js]) *)

Section MoreFilters.
Context {host : Host}.

Definition filterComplaints (status : string) (dom : search_inputs) : M unit :=
  modify (λ s, set_filters
    {| Filters.requests := Filters.requests (filters s);
       Filters.complaints := status;
       Filters.payments := Filters.payments (filters s);
       Filters.notifications := Filters.notifications (filters s) |} s);;
  renderComplaints dom.

Definition filterPayments (status : string) (dom : search_inputs) : M unit :=
  modify (λ s, set_filters
    {| Filters.requests := Filters.requests (filters s);
       Filters.complaints := Filters.complaints (filters s);
       Filters.payments := status;
       Filters.notifications := Filters.notifications (filters s) |} s);;
  renderPayments dom.

End MoreFilters.

Definition filterNotifications (token : string) : M unit :=
  modify (λ s, set_filters
    {| Filters.requests := Filters.requests (filters s);
       Filters.complaints := Filters.complaints (filters s);
       Filters.payments := Filters.payments (filters s);
       Filters.notifications := token |} s);;
  renderNotifications.

(** The list [renderNotifications] shows for a filter token. *)
Definition notifications_view (token : string) (l : list record) : list record :=
  if String.eqb token "unread" then List.filter (λ n, negb (is_read n)) l
  else if String.eqb token "read" then List.filter is_read l
  else l.

(** The number on the notification badge. *)
Definition unread_count (l : list record) : nat :=
  length (List.filter (λ n, negb (is_read n)) l).



(** Two dashboard states that cache the same data and show the same tab. *)
Definition same_data (s s' : dash_state) : Prop :=
  requests s' = requests s ∧ complaints s' = complaints s
  ∧ payments s' = payments s ∧ notifications s' = notifications s
  ∧ profile s' = profile s ∧ currentTab s' = currentTab s.

(** ** Form helpers (the utility functions) *)

Module Chars.

(** A string as its characters, and back. *)
Definition of_string (s : string) : list ascii := list_ascii_of_string s.
Definition text (l : list ascii) : string := string_of_list_ascii l.

Definition is_digit (c : ascii) : bool :=
  let n := Ascii.nat_of_ascii c in (Nat.leb 48 n && Nat.leb n 57)%bool.

Definition is_upper (c : ascii) : bool :=
  let n := Ascii.nat_of_ascii c in (Nat.leb 65 n && Nat.leb n 90)%bool.

Definition is_lower (c : ascii) : bool :=
  let n := Ascii.nat_of_ascii c in (Nat.leb 97 n && Nat.leb n 122)%bool.

(** [s.replace(/\s/g, '')] on the ASCII range. *)
Definition without_spaces (l : list ascii) : list ascii :=
  List.filter (λ c, negb (ParseInt.is_space c)) l.


(** [s.match(/.{1,4}/g)] on characters that are no line ends: groups of
    four, the last one shorter if need be, and no group for no character. *)
Fixpoint group4 (l : list ascii) : list (list ascii) :=
  match l with
  | a :: b :: c :: d :: rest => [a; b; c; d] :: group4 rest
  | [] => []
  | short => [short]
  end.

(** [groups.join(' ')] *)
Fixpoint spaced (groups : list (list ascii)) : list ascii :=
  match groups with
  | [] => []
  | [g] => g
  | g :: rest => g ++ " "%char :: spaced rest
  end.

(** The number a digit stands for: [parseInt] of a one-digit string. *)
Definition digit_value (c : ascii) : Z := Z.of_nat (Ascii.nat_of_ascii c) - 48.

End Chars.

(** [formatCardNumber(cardNumber)] *)
Definition formatCardNumber (cardNumber : string) : string :=
  let value := Chars.without_spaces (Chars.of_string cardNumber) in
  let value := if Nat.ltb 16 (length value) then take 16 value else value in
  Chars.text (match Chars.group4 value with
              | [] => value
              | groups => Chars.spaced groups
              end).


(** The loop of [isValidCardNumber], over the digits from the right. *)
Fixpoint luhn_sum (isEven : bool) (digits_from_right : list Z) : Z :=
  match digits_from_right with
  | [] => 0
  | digit :: rest =>
      let digit :=
        if isEven then (if (9 <? digit * 2)%Z then digit * 2 - 9 else digit * 2)%Z
        else digit in
      (digit + luhn_sum (negb isEven) rest)%Z
  end.

(** [isValidCardNumber(cardNumber)] *)
Definition isValidCardNumber (cardNumber : string) : bool :=
  let cleaned := Chars.without_spaces (Chars.of_string cardNumber) in
  if negb (forallb Chars.is_digit cleaned
           && Nat.leb 13 (length cleaned) && Nat.leb (length cleaned) 19)
  then false
  else Z.eqb (luhn_sum false (rev (map Chars.digit_value cleaned)) mod 10) 0.

(** [validatePassword(password)]: [valid] and [message]. *)
Definition validatePassword (password : string) : bool * string :=
  let cs := Chars.of_string password in
  if Nat.ltb (length cs) 8 then (false, "Password must be at least 8 characters")
  else if negb (existsb Chars.is_upper cs)
  then (false, "Password must contain at least one uppercase letter")
  else if negb (existsb Chars.is_lower cs)
  then (false, "Password must contain at least one lowercase letter")
  else if negb (existsb Chars.is_digit cs)
  then (false, "Password must contain at least one number")
  else (true, "Strong password").

(** [isValidFileType(file, allowedTypes)], on the file's name. *)
Definition isValidFileType (name : string) (allowedTypes : list string) : bool :=
  let fileExtension :=
    Str.toLowerCase (List.last (Str.split "."%char name) EmptyString) in
  existsb (String.eqb fileExtension) allowedTypes.

(** What one digit adds to the sum, doubled or not. *)
Definition luhn_weight (isEven : bool) (digit : Z) : Z :=
  if isEven then (if (9 <? digit * 2)%Z then digit * 2 - 9 else digit * 2)%Z
  else digit.

(** * Properties *)

(** ** Request construction *)

Lemma apiRequest_content_type (c : api_call) (w : browser) :
  headers (opts c) !! "Content-Type" = None →
  headers (config (apiRequest c w)) !! "Content-Type" = Some "application/json".
Proof.
  intros Hnone. unfold apiRequest; simpl.
  rewrite lookup_union_r by done.
  destruct (getAuthToken w) as [token|]; [destruct (Str.is_empty token)|];
    by simplify_map_eq.
Qed.

(** The helper written for the login sends a form-encoded body. *)
Lemma apiPostForm_form_encoded (endpoint : string) (formData : list (string * string))
    (w : browser) :
  let sent := config (apiRequest (apiPostForm endpoint formData) w) in
  headers sent !! "Content-Type" = Some "application/x-www-form-urlencoded"
  ∧ body sent = Some (FormBody formData).
Proof.
  split; [|done]. unfold apiRequest; simpl.
  apply lookup_union_Some_l. by simplify_map_eq.
Qed.

(** C1, as the code has it: for every email and password, [AuthAPI.login]
    posts to [/auth/login] through [apiPost], so the request carries the
    JSON content type and the JSON text of [{email, password}], and not the
    form encoding the specification gives it. *)
Theorem AuthAPI_login_sends_json (email password : string) (w : browser) :
  let sent := apiRequest (AuthAPI.login email password) w in
  url sent = API_BASE_URL w ++ "/auth/login"
  ∧ method (config sent) = Some "POST"
  ∧ headers (config sent) !! "Content-Type" = Some "application/json"
  ∧ body (config sent)
    = Some (JsonBody (VObj [("email", VStr email); ("password", VStr password)]))
  ∧ ∀ formData, body (config sent) ≠ Some (FormBody formData).
Proof.
  repeat split; try done.
  now apply apiRequest_content_type.
Qed.

(** ** Status lookups *)

Lemma formatStatus_table :
  map formatStatus
    [ "SUBMITTED"; "UNDER_REVIEW"; "UNDER_INVESTIGATION"; "IN_PROGRESS"; "APPROVED";
      "REJECTED"; "PAID"; "COMPLETED"; "RESOLVED"; "CLOSED"; "PENDING"; "FAILED";
      "REFUNDED" ]
  = map VStr
    [ "Submitted"; "Under Review"; "Under Investigation"; "In Progress"; "Approved";
      "Rejected"; "Paid"; "Completed"; "Resolved"; "Closed"; "Pending"; "Failed";
      "Refunded" ].
Proof. reflexivity. Qed.

Lemma getStatusClass_table :
  map getStatusClass
    [ "SUBMITTED"; "UNDER_REVIEW"; "UNDER_INVESTIGATION"; "IN_PROGRESS"; "APPROVED";
      "REJECTED"; "PAID"; "COMPLETED"; "RESOLVED"; "CLOSED"; "PENDING"; "FAILED";
      "REFUNDED" ]
  = map VStr
    [ "submitted"; "under-review"; "under-review"; "under-review"; "approved";
      "rejected"; "paid"; "completed"; "completed"; "completed"; "submitted";
      "rejected"; "submitted" ].
Proof. reflexivity. Qed.

Lemma own_get_same_keys (p q : record) (key : string) :
  map fst p = map fst q → own_get p key = None → own_get q key = None.
Proof.
  revert q. induction p as [|[k v] p IH]; intros [|[k' v'] q]; simpl; try done.
  intros [= -> Hrest]. destruct (String.eqb k' key); [done | by apply IH].
Qed.

(** A status that is neither in the table nor the name of something every
    object inherits falls back as the tables intend. *)
Lemma status_fallback (status : string) :
  own_get statusMap status = None →
  inherited_get status = VUndefined →
  formatStatus status = VStr status ∧ getStatusClass status = VStr "submitted".
Proof.
  intros Hown Hinh.
  assert (own_get classMap status = None) as Hclass
    by (by apply (own_get_same_keys statusMap)).
  unfold formatStatus, getStatusClass, obj_get.
  rewrite Hown, Hclass, Hinh. split; reflexivity.
Qed.

Lemma status_fallback_witness :
  formatStatus "ARCHIVED" = VStr "ARCHIVED" ∧ getStatusClass "ARCHIVED" = VStr "submitted".
Proof. apply status_fallback; reflexivity. Defined.

(** A status that is not in the table but names a member every object
    inherits comes back as that member, from both functions. *)
Lemma status_inherited (status : string) :
  own_get statusMap status = None →
  inherited_get status ≠ VUndefined →
  formatStatus status = inherited_get status
  ∧ getStatusClass status = inherited_get status.
Proof.
  intros Hown Hinh.
  assert (own_get classMap status = None) as Hclass
    by (by apply (own_get_same_keys statusMap)).
  assert (truthy (inherited_get status) = true) as Htruthy.
  { revert Hinh. unfold inherited_get.
    repeat (destruct (_ : bool); [done|]). done. }
  unfold formatStatus, getStatusClass, obj_get, js_or.
  rewrite Hown, Hclass, Htruthy. done.
Qed.

Lemma status_inherited_witness :
  formatStatus "toString" = VNative (ProtoMethod "toString")
  ∧ getStatusClass "toString" = VNative (ProtoMethod "toString").
Proof. apply status_inherited; [reflexivity | discriminate]. Defined.

(** C2, at the input where the code departs from it: ["constructor"] is not
    one of the thirteen statuses, yet the lookup finds the member every
    object inherits, so both functions return the function [Object] and not
    a string. *)
Theorem status_lookup_inherited_member :
  own_get statusMap "constructor" = None
  ∧ formatStatus "constructor" = VNative ObjectCtor
  ∧ getStatusClass "constructor" = VNative ObjectCtor
  ∧ (∀ s, formatStatus "constructor" ≠ VStr s)
  ∧ (∀ s, getStatusClass "constructor" ≠ VStr s).
Proof. repeat split; done. Qed.

(** ** Session store *)

Lemma item_or_present (t : string) (b : option string) :
  t ≠ "" → item_or (Some t) b = Some t.
Proof. intros Hne. destruct t; [done | reflexivity]. Qed.

Lemma setAuthToken_session (token : value) (remember : bool) (w : browser) :
  sessionStorage (setAuthToken token remember w) !! "access_token"
  = Some (to_string token).
Proof. unfold setAuthToken. destruct remember; simpl; by simplify_map_eq. Qed.

Lemma setAuthToken_local (token : value) (remember : bool) (w : browser) :
  localStorage (setAuthToken token remember w)
  = if remember then <["access_token" := to_string token]> (localStorage w)
    else localStorage w.
Proof. unfold setAuthToken. by destruct remember. Qed.

Lemma clearAuthToken_cleared (w : browser) (key : string) :
  key = "access_token" ∨ key = "userData" →
  localStorage (clearAuthToken w) !! key = None
  ∧ sessionStorage (clearAuthToken w) !! key = None.
Proof. intros [-> | ->]; unfold clearAuthToken; simpl; by simplify_map_eq. Qed.

Lemma clearAuthToken_cleared_witness :
  localStorage (clearAuthToken fresh_browser) !! "userData" = None
  ∧ sessionStorage (clearAuthToken fresh_browser) !! "userData" = None.
Proof. apply clearAuthToken_cleared. by right. Defined.

Section SessionStore.
Context {host : Host}.

(** C6: a successful login with [remember] writes the token and the user
    data to both [localStorage] and [sessionStorage]; without [remember] it
    writes them to [sessionStorage] and leaves [localStorage] as it was; a
    confirmed logout removes both entries from both scopes, whatever they
    held. *)
Theorem login_scopes_logout_clears (data : record) (w : browser) :
  let token := to_string (obj_get data "access_token") in
  let userData := JSON_stringify (user_projection data) in
  let remembered := snd (login (Resolved data) true w) in
  let session_only := snd (login (Resolved data) false w) in
  let left := logout true w in
  (fst (login (Resolved data) true w) = Resolved data
   ∧ localStorage remembered !! "access_token" = Some token
   ∧ sessionStorage remembered !! "access_token" = Some token
   ∧ localStorage remembered !! "userData" = Some userData
   ∧ sessionStorage remembered !! "userData" = Some userData)
  ∧ (fst (login (Resolved data) false w) = Resolved data
     ∧ sessionStorage session_only !! "access_token" = Some token
     ∧ sessionStorage session_only !! "userData" = Some userData
     ∧ localStorage session_only = localStorage w)
  ∧ (localStorage left !! "access_token" = None
     ∧ sessionStorage left !! "access_token" = None
     ∧ localStorage left !! "userData" = None
     ∧ sessionStorage left !! "userData" = None).
Proof.
  simpl. repeat split; try (by simplify_map_eq).
Qed.

(** C9: [getAuthToken] returns the token [localStorage] holds whenever it
    holds one (a non-empty string: the empty string is no token to [||]),
    and the one of [sessionStorage] only when [localStorage] has none. So a
    durable token that survives a later session-only login is still the one
    every request carries in its bearer header. *)
Theorem getAuthToken_prefers_durable (w : browser) :
  (∀ t, localStorage w !! "access_token" = Some t → t ≠ "" →
        getAuthToken w = Some t)
  ∧ (localStorage w !! "access_token" = None
     ∨ localStorage w !! "access_token" = Some "" →
     getAuthToken w = sessionStorage w !! "access_token")
  ∧ (∀ t data, localStorage w !! "access_token" = Some t → t ≠ "" →
        getAuthToken (snd (login (Resolved data) false w)) = Some t)
  ∧ (∀ t c, localStorage w !! "access_token" = Some t → t ≠ "" →
        headers (opts c) !! "Authorization" = None →
        headers (config (apiRequest c w)) !! "Authorization" = Some ("Bearer " ++ t))
  ∧ (∀ t requestId file, localStorage w !! "access_token" = Some t → t ≠ "" →
        headers (config (FileAPI.uploadRequestFile requestId file w)) !! "Authorization"
        = Some ("Bearer " ++ t)).
Proof.
  assert (∀ t, localStorage w !! "access_token" = Some t → t ≠ "" →
               getAuthToken w = Some t) as Hdurable.
  { intros t Ht Hne. unfold getAuthToken. rewrite Ht. by apply item_or_present. }
  split; [exact Hdurable|]. split; [|split; [|split]].
  - intros [Hl | Hl]; unfold getAuthToken; by rewrite Hl.
  - intros t data Ht Hne. unfold getAuthToken. simpl.
    rewrite Ht. by apply item_or_present.
  - intros t c Ht Hne Hc. unfold apiRequest; simpl.
    rewrite lookup_union_r by done.
    rewrite (Hdurable t Ht Hne). destruct t; [done|]. by simplify_map_eq.
  - intros t requestId file Ht Hne. unfold FileAPI.uploadRequestFile; simpl.
    rewrite (Hdurable t Ht Hne). by simplify_map_eq.
Qed.

End SessionStore.

Lemma getAuthToken_prefers_durable_witness :
  getAuthToken stale_browser = Some "old-token"
  ∧ headers (config (apiRequest RequestAPI.getMyRequests stale_browser)) !! "Authorization"
    = Some "Bearer old-token".
Proof.
  destruct (getAuthToken_prefers_durable (host := bare_host) stale_browser)
    as (Hget & _ & _ & Hreq & _).
  split.
  - apply Hget; [reflexivity | discriminate].
  - apply (Hreq "old-token"); [reflexivity | discriminate | reflexivity].
Defined.

(** ** Searching and filtering *)

Lemma filter_sublist {A} (f : A → bool) (l : list A) : List.filter f l `sublist_of` l.
Proof.
  induction l as [|a l IH]; simpl; [constructor|].
  destruct (f a); by constructor.
Qed.

Lemma filter_comm {A} (f g : A → bool) (l : list A) :
  List.filter f (List.filter g l) = List.filter g (List.filter f l).
Proof.
  induction l as [|a l IH]; simpl; [done|].
  destruct (g a) eqn:Hg, (f a) eqn:Hf; simpl; rewrite ?Hg, ?Hf; congruence.
Qed.

Lemma elem_of_filter {A} (f : A → bool) (l : list A) (x : A) :
  x ∈ List.filter f l ↔ x ∈ l ∧ f x = true.
Proof. rewrite !list_elem_of_In. apply filter_In. Qed.

Section SearchProperties.
Context {host : Host}.

Lemma filterBySearch_nonempty (items : list record) (searchTerm : string)
    (fields : list string) :
  searchTerm ≠ "" →
  filterBySearch items searchTerm fields
  = List.filter (item_matches (Str.toLowerCase searchTerm) fields) items.
Proof. intros Hne. unfold filterBySearch. destruct searchTerm; [done | reflexivity]. Qed.

Lemma field_matches_nullish (term : string) (item : value) (field : string) :
  resolve_path item field = VUndefined ∨ resolve_path item field = VNull →
  field_matches term item field = false.
Proof. unfold field_matches. by intros [-> | ->]. Qed.

Lemma by_status_comm_search (fields : list string) (token searchTerm : string)
    (collection : list record) :
  by_search fields searchTerm (by_status token collection)
  = by_status token (by_search fields searchTerm collection).
Proof.
  unfold by_search, by_status, filterBySearch.
  destruct (Str.is_empty searchTerm), (String.eqb token "all"); try done.
  apply filter_comm.
Qed.

(** C3: the status filter and the search commute. What a render function
    shows (filter, then search) is what searching first and filtering
    second gives, and a record is shown exactly when it is in the
    filter-only view and among the search-only matches. *)
Theorem filter_search_commute (fields : list string) (token box : string)
    (collection : list record) :
  derived_view fields token box collection
  = by_status token (by_search fields (Str.toLowerCase box) collection)
  ∧ ∀ r, r ∈ derived_view fields token box collection
         ↔ r ∈ derived_view fields token "" collection
           ∧ r ∈ derived_view fields "all" box collection.
Proof.
  split; [apply by_status_comm_search|]. intros r.
  unfold derived_view. simpl (Str.toLowerCase "").
  unfold by_search at 2. simpl (Str.is_empty "").
  unfold by_status at 3. simpl (String.eqb "all" "all").
  unfold by_search, by_status, filterBySearch.
  destruct (Str.is_empty (Str.toLowerCase box)), (String.eqb token "all");
    rewrite ?elem_of_filter; tauto.
Qed.

(** C10: [filterBySearch] selects. Its result is a subsequence of the items,
    in their order, made of the very records it was given (the function
    writes nothing); for the empty term it is the list of items itself; and
    for any other term an item whose every listed path resolves to
    [undefined] (a missing property) or [null] is left out. *)
Theorem filterBySearch_selection (items : list record) (searchTerm : string)
    (fields : list string) :
  filterBySearch items searchTerm fields `sublist_of` items
  ∧ filterBySearch items "" fields = items
  ∧ (searchTerm ≠ "" →
     ∀ item,
       (∀ field, field ∈ fields →
          resolve_path (VObj item) field = VUndefined
          ∨ resolve_path (VObj item) field = VNull) →
       item ∉ filterBySearch items searchTerm fields).
Proof.
  split; [|split].
  - unfold filterBySearch. destruct (Str.is_empty searchTerm); [done|].
    apply filter_sublist.
  - reflexivity.
  - intros Hne item Hnull. rewrite filterBySearch_nonempty by done.
    rewrite elem_of_filter. intros [_ Hhit].
    unfold item_matches in Hhit. apply existsb_exists in Hhit as (field & Hin & Hm).
    rewrite field_matches_nullish in Hm; [done|].
    apply Hnull. by apply list_elem_of_In.
Qed.

End SearchProperties.

Example filterBySearch_permit :
  filterBySearch (host := bare_host)
    [[("request_type", VStr "Permit")]] "perm" ["request_type"]
  = [[("request_type", VStr "Permit")]].
Proof. reflexivity. Qed.

Example filterBySearch_no_match :
  filterBySearch (host := bare_host)
    [[("request_type", VStr "Permit")]] "zzz" ["request_type"] = [].
Proof. reflexivity. Qed.

Lemma filterBySearch_selection_witness :
  [("title", VStr "Noise"); ("category", VNull)]
  ∉ filterBySearch (host := bare_host)
      [[("title", VStr "Noise"); ("category", VNull)]] "park" ["category"; "location"].
Proof.
  destruct (filterBySearch_selection (host := bare_host)
              [[("title", VStr "Noise"); ("category", VNull)]] "park"
              ["category"; "location"]) as (_ & _ & Hout).
  apply Hout; [discriminate|].
  intros field Hin. apply list_elem_of_In in Hin.
  destruct Hin as [<- | [<- | []]]; [by right | by left].
Defined.

(** ** Handlers *)

Lemma grown_nil (p : page) : grown p (state p) [] = p.
Proof. destruct p. unfold grown; simpl. by rewrite app_nil_r. Qed.

Lemma grown_grown (p : page) (s s' : dash_state) (a b : list event) :
  grown (grown p s a) s' b = grown p s' (a ++ b).
Proof. unfold grown; simpl. by rewrite app_assoc. Qed.

Lemma emit_grown (e : event) (p : page) :
  emit e p = (Resolved (), grown p (state p) [e]).
Proof. reflexivity. Qed.

Lemma display_ret : display (mret ()).
Proof.
  intros p. exists []. rewrite grown_nil. by repeat split; constructor.
Qed.

Lemma display_emit (e : event) :
  signals_error e = false → is_network e = false → display (emit e).
Proof.
  intros Hq Hn p. exists [e]. repeat split; by repeat constructor.
Qed.

Lemma display_seq (m n : M unit) : display m → display n → display (m ;; n).
Proof.
  intros Hm Hn p.
  destruct (Hm p) as (a & Em & Qa & Na).
  destruct (Hn (grown p (state p) a)) as (b & En & Qb & Nb).
  exists (a ++ b)%list. unfold mbind, M_bind. rewrite Em, En. simpl.
  rewrite grown_grown. repeat split; by apply Forall_app.
Qed.

Lemma display_read (k : dash_state → M unit) :
  (∀ s, display (k s)) → display (read ≫= k).
Proof. intros Hk p. apply (Hk (state p)). Qed.

Lemma display_show_list (id message : string) (filtered : list record) :
  display (show_list id message filtered).
Proof. destruct filtered; by apply display_emit. Qed.

Section Displays.
Context {host : Host}.

Lemma display_renderRequests (dom : search_inputs) : display (renderRequests dom).
Proof. apply display_read; intros s. apply display_show_list. Qed.

Lemma display_renderComplaints (dom : search_inputs) : display (renderComplaints dom).
Proof. apply display_read; intros s. apply display_show_list. Qed.

Lemma display_renderPayments (dom : search_inputs) : display (renderPayments dom).
Proof. apply display_read; intros s. apply display_show_list. Qed.

Lemma display_renderNotifications : display renderNotifications.
Proof. apply display_read; intros s. apply display_show_list. Qed.

Lemma display_updateWelcome : display updateWelcome.
Proof.
  apply display_read; intros s.
  destruct (truthy (profile s)); [by apply display_emit | apply display_ret].
Qed.

Lemma display_updateSummaryCards : display updateSummaryCards.
Proof.
  apply display_read; intros s.
  repeat (apply display_seq; [by apply display_emit|]).
  by apply display_emit.
Qed.

(** Everything [loadDashboardData] does after it has stored what it
    fetched. *)
Lemma display_refresh (dom : search_inputs) :
  display (updateWelcome;; updateSummaryCards;; renderRequests dom;;
           renderComplaints dom;; renderPayments dom;; renderNotifications).
Proof.
  repeat apply display_seq;
    auto using display_updateWelcome, display_updateSummaryCards,
      display_renderRequests, display_renderComplaints, display_renderPayments,
      display_renderNotifications.
Qed.

End Displays.

(** *** Composing what handlers perform *)

Lemma performs_ret {A} (a : A) (p : page) : performs (mret a) p a (state p).
Proof. exists []. rewrite grown_nil. by split; [|constructor]. Qed.

Lemma performs_await {A} (a : A) (p : page) : performs (await (Resolved a)) p a (state p).
Proof. apply performs_ret. Qed.

Lemma performs_emit (e : event) (p : page) :
  signals_error e = false → performs (emit e) p () (state p).
Proof. intros Hq. exists [e]. split; [done | by repeat constructor]. Qed.

Lemma performs_modify (f : dash_state → dash_state) (p : page) :
  performs (modify f) p () (f (state p)).
Proof.
  exists []. split; [|constructor].
  unfold modify, grown. by rewrite app_nil_r.
Qed.

Lemma performs_display (m : M unit) (p : page) :
  display m → performs m p () (state p).
Proof. intros Hm. destruct (Hm p) as (added & E & Q & _). by exists added. Qed.

Lemma performs_bind {A B} (m : M A) (k : A → M B) (p : page)
    (a : A) (s1 : dash_state) (b : B) (s2 : dash_state) :
  performs m p a s1 →
  (∀ q, state q = s1 → performs (k a) q b s2) →
  performs (m ≫= k) p b s2.
Proof.
  intros (added1 & E1 & Q1) Hk.
  destruct (Hk (grown p s1 added1) eq_refl) as (added2 & E2 & Q2).
  exists (added1 ++ added2)%list. unfold mbind, M_bind. rewrite E1, E2.
  rewrite grown_grown. split; [done | by apply Forall_app].
Qed.

Lemma performs_try_catch {A} (body : M A) (handler : string → M A) (p : page)
    (a : A) (s : dash_state) :
  performs body p a s → performs (try_catch body handler) p a s.
Proof. intros (added & E & Q). exists added. unfold try_catch. by rewrite E. Qed.

Lemma performs_try_finally {A} (body : M A) (final : M unit) (p : page)
    (a : A) (s : dash_state) :
  performs body p a s →
  (∀ q, state q = s → performs final q () s) →
  performs (try_finally body final) p a s.
Proof.
  intros (added1 & E1 & Q1) Hfinal.
  destruct (Hfinal (grown p s added1) eq_refl) as (added2 & E2 & Q2).
  exists (added1 ++ added2)%list. unfold try_finally. rewrite E1, E2.
  rewrite grown_grown. split; [done | by apply Forall_app].
Qed.

(** A facade call inside [try ... catch] whose handler only logs and
    supplies a default. *)
Lemma performs_call_or_default {A} (c : api_call) (reply : outcome A)
    (note : string → string) (fallback : A) (p : page) :
  performs
    (try_catch (call c reply) (λ message, emit (ConsoleLog (note message));; mret fallback))
    p
    (match reply with Resolved a => a | Rejected _ => fallback end)
    (state p).
Proof.
  destruct reply as [a | message].
  - exists [Requested c]. split; [done | by repeat constructor].
  - exists [Requested c; ConsoleLog (note message)]. split; [|by repeat constructor].
    unfold try_catch, call, grown, mbind, M_bind, emit; simpl.
    by rewrite <- app_assoc.
Qed.

Lemma catch_with_default (reply : outcome (list record)) :
  catch_with reply (λ _, []) = Resolved (fetched_or_empty reply).
Proof. by destruct reply. Qed.

(** ** Loading the dashboard *)

Section Loading.
Context {host : Host}.

Lemma loadDashboardData_performs (w : browser) (dom : search_inputs)
    (userData : value) (profile_reply : outcome value)
    (requests_reply complaints_reply payments_reply notifications_reply
       : outcome (list record)) (p : page) :
  getUserData w = Resolved userData →
  performs
    (loadDashboardData w dom profile_reply requests_reply complaints_reply
       payments_reply notifications_reply)
    p ()
    (loaded_state userData profile_reply requests_reply complaints_reply
       payments_reply notifications_reply (state p)).
Proof.
  intros Huser. unfold loadDashboardData.
  rewrite !catch_with_default, Huser.
  eapply performs_bind; [by apply performs_emit|]. intros q0 Hq0.
  apply performs_try_finally;
    [|intros q Hq; rewrite <- Hq; by apply performs_emit].
  apply performs_try_catch.
  eapply performs_bind; [apply performs_await|]. intros q1 Hq1.
  eapply performs_bind; [apply performs_call_or_default|]. intros q2 Hq2.
  eapply performs_bind; [by apply performs_emit|]. intros q3 Hq3.
  eapply performs_bind; [by apply performs_emit|]. intros q4 Hq4.
  eapply performs_bind; [by apply performs_emit|]. intros q5 Hq5.
  eapply performs_bind; [by apply performs_emit|]. intros q6 Hq6.
  eapply performs_bind; [apply performs_await|]. intros q7 Hq7.
  cbv beta iota.
  eapply performs_bind; [apply performs_modify|]. intros q8 Hq8.
  replace (loaded_state userData profile_reply requests_reply complaints_reply
             payments_reply notifications_reply (state p)) with (state q8)
    by (rewrite Hq8, Hq7, Hq6, Hq5, Hq4, Hq3, Hq2, Hq1, Hq0; reflexivity).
  apply performs_display, display_refresh.
Qed.

(** C4: however the four collection fetches settle (all, some or none of
    them failing), and however the profile fetch settles,
    [loadDashboardData] returns normally and reports no error; each
    collection whose fetch failed is the empty list, each other one is
    what was fetched, and the filters are untouched. The cached user data
    is assumed readable, as it is whenever [setUserData] wrote it. *)
Theorem loadDashboardData_tolerates_failures (w : browser) (dom : search_inputs)
    (userData : value) (profile_reply : outcome value)
    (requests_reply complaints_reply payments_reply notifications_reply
       : outcome (list record)) (p : page) :
  getUserData w = Resolved userData →
  let result := loadDashboardData w dom profile_reply requests_reply complaints_reply
                  payments_reply notifications_reply p in
  fst result = Resolved ()
  ∧ requests (state (snd result)) = fetched_or_empty requests_reply
  ∧ complaints (state (snd result)) = fetched_or_empty complaints_reply
  ∧ payments (state (snd result)) = fetched_or_empty payments_reply
  ∧ notifications (state (snd result)) = fetched_or_empty notifications_reply
  ∧ filters (state (snd result)) = filters (state p)
  ∧ ∃ added, events (snd result) = (events p ++ added)%list ∧ quiet added.
Proof.
  intros Huser result. subst result.
  destruct (loadDashboardData_performs w dom userData profile_reply requests_reply
              complaints_reply payments_reply notifications_reply p Huser)
    as (added & -> & Hquiet).
  repeat split; try reflexivity. by exists added.
Qed.

End Loading.

(** Three of the four fetches fail, and so does the profile fetch. *)
Lemma loadDashboardData_tolerates_failures_witness :
  let result :=
    loadDashboardData (host := bare_host) fresh_browser empty_boxes
      (Rejected "Not a citizen")
      (Rejected "Cannot connect to server. Please check your connection.")
      (Rejected "Request failed")
      (Resolved [sample_payment])
      (Rejected "Session expired. Please login again.")
      fresh_page in
  fst result = Resolved ()
  ∧ requests (state (snd result)) = []
  ∧ complaints (state (snd result)) = []
  ∧ payments (state (snd result)) = [sample_payment]
  ∧ notifications (state (snd result)) = [].
Proof.
  destruct (loadDashboardData_tolerates_failures (host := bare_host)
              fresh_browser empty_boxes VNull
              (Rejected "Not a citizen")
              (Rejected "Cannot connect to server. Please check your connection.")
              (Rejected "Request failed")
              (Resolved [sample_payment])
              (Rejected "Session expired. Please login again.")
              fresh_page eq_refl)
    as (Hret & Hreq & Hcomp & Hpay & Hnotif & _).
  repeat split; assumption.
Defined.

(** ** Running handlers step by step *)

Ltac pass lem :=
  match type of lem with
  | display ?m =>
      match goal with
      | |- context [m ?q] =>
          let E := fresh "E" in
          destruct (lem q) as (? & E & ? & ?); rewrite E; clear E; simpl
      end
  end.

Ltac run :=
  unfold try_finally, try_catch, call, await, throw, mbind, M_bind, mret, M_ret,
    emit, modify, read, setTimeout; simpl.

Lemma offline_no_calls (added : list event) :
  offline added → List.filter is_network added = [].
Proof.
  induction 1 as [|e l He _ IH]; simpl; [done|]. by rewrite He.
Qed.

Lemma network_calls_app (p : page) (s : dash_state) (added : list event)
    (t : list (timer * Z)) :
  network_calls {| state := s; events := events p ++ added; pending := t |}
  = (network_calls p ++ List.filter is_network added)%list.
Proof. unfold network_calls; simpl. apply List.filter_app. Qed.

(** ** Notifications *)

Lemma mark_first_read_find (id : value) (l : list record) :
  match list_find (λ n, strict_eq (obj_get n "notification_id") id = true) l with
  | Some (i, notif) => <[i := obj_set notif "is_read" (VBool true)]> l
  | None => l
  end = mark_first_read id l.
Proof.
  induction l as [|n l IH]; simpl; [done|].
  case_decide as Hn.
  - by rewrite Hn.
  - apply not_true_is_false in Hn. rewrite Hn.
    destruct (list_find _ l) as [[i notif]|]; simpl in *; by rewrite <- IH.
Qed.

Lemma obj_get_set (n : record) (key : string) (v : value) :
  obj_get (obj_set n key v) key = v.
Proof.
  unfold obj_get. induction n as [|[k w] n IH]; simpl.
  - by rewrite String.eqb_refl.
  - destruct (String.eqb k key) eqn:Hk; simpl; by rewrite Hk.
Qed.

Lemma mark_first_read_length (id : value) (l : list record) :
  length (mark_first_read id l) = length l.
Proof.
  induction l as [|n l IH]; simpl; [done|].
  destruct (strict_eq _ _); simpl; by rewrite ?IH.
Qed.

(** What marking does to the flags: the first notification with the id is
    read afterwards, and a notification with another id is as it was. *)
Lemma mark_first_read_flags (id : value) (l : list record) (j : nat) (n : record) :
  l !! j = Some n →
  ∃ n', mark_first_read id l !! j = Some n'
        ∧ (n' = n ∨ (strict_eq (obj_get n "notification_id") id = true
                     ∧ n' = obj_set n "is_read" (VBool true)
                     ∧ is_read n' = true)).
Proof.
  revert j. induction l as [|m l IH]; intros j Hj; [done|]. simpl.
  destruct (strict_eq (obj_get m "notification_id") id) eqn:Hm.
  - destruct j as [|j]; simpl in *; [|eauto].
    injection Hj as ->. eexists; split; [done|]. right.
    unfold is_read. by rewrite obj_get_set.
  - destruct j as [|j]; simpl in *; [eauto | by apply IH].
Qed.

Lemma mark_first_read_flags_witness :
  ∃ n', mark_first_read (VNum 3)
          [[("notification_id", VNum 3); ("is_read", VBool false)]] !! 0%nat = Some n'
        ∧ (n' = [("notification_id", VNum 3); ("is_read", VBool false)]
           ∨ (strict_eq (obj_get [("notification_id", VNum 3); ("is_read", VBool false)]
                           "notification_id") (VNum 3) = true
              ∧ n' = obj_set [("notification_id", VNum 3); ("is_read", VBool false)]
                       "is_read" (VBool true)
              ∧ is_read n' = true)).
Proof. by apply mark_first_read_flags. Defined.

Lemma set_notifications_same (s : dash_state) :
  set_notifications (notifications s) s = s.
Proof. by destruct s. Qed.

Section Handlers.
Context {host : Host}.
#[local] Opaque updateSummaryCards renderNotifications renderRequests.

(** C5: [markNotificationRead] asks the server first. When that call fails
    the dashboard state is what it was, so no cached [is_read] flag moves;
    when it succeeds the first cached notification with that id is marked
    read and nothing else changes. *)
Theorem markNotificationRead_after_server (notificationId : value)
    (reply : outcome value) (p : page) :
  let p' := snd (markNotificationRead notificationId reply p) in
  state p'
  = match reply with
    | Resolved _ =>
        set_notifications (mark_first_read notificationId (notifications (state p)))
          (state p)
    | Rejected _ => state p
    end
  ∧ ∃ rest, events p'
            = (events p ++ Requested (NotificationAPI.markAsRead notificationId) :: rest)%list.
Proof.
  unfold markNotificationRead. destruct reply as [data | message]; run.
  - rewrite <- mark_first_read_find.
    destruct (list_find _ _) as [[i notif]|]; simpl.
    + pass display_updateSummaryCards. pass display_renderNotifications.
      split; [done|]. eexists. by rewrite <- !app_assoc.
    + rewrite set_notifications_same. split; [done|]. by exists [].
  - split; [done|]. eexists. by rewrite <- app_assoc.
Qed.

(** ** Feedback *)

Lemma handleFeedback_zero (rating_input feedback_type comment : string)
    (reply : outcome value) (p : page) :
  ParseInt.parseInt rating_input = Some 0%Z →
  handleFeedback rating_input feedback_type comment reply p
  = emit (ElementMessage "feedback-modal-message" "Please select a rating" "error") p.
Proof. intros Hz. unfold handleFeedback. by rewrite Hz. Qed.

(** Whatever else the rating field parses to, the feedback is sent. *)
Lemma handleFeedback_nonzero (rating_input feedback_type comment : string)
    (reply : outcome value) (p : page) :
  ParseInt.parseInt rating_input ≠ Some 0%Z →
  network_calls (snd (handleFeedback rating_input feedback_type comment reply p))
  = (network_calls p
    ++ [Requested (FeedbackAPI.create
                     (VObj [("rating", number (ParseInt.parseInt rating_input));
                            ("feedback_type", VStr feedback_type);
                            ("comment", VStr comment)]))])%list.
Proof.
  intros Hnz. unfold handleFeedback.
  assert (strict_eq (number (ParseInt.parseInt rating_input)) (VNum 0) = false) as ->.
  { destruct (ParseInt.parseInt rating_input) as [n|]; simpl; [|done].
    apply Z.eqb_neq. congruence. }
  destruct reply; run; rewrite <- !app_assoc; rewrite network_calls_app; done.
Qed.

(** C7, amended: for a rating field that parses to a non-negative integer,
    a rating below 1 is refused with the validation message and no API call
    is made, and a rating of at least 1 is sent to the feedback API. *)
Theorem handleFeedback_requires_rating (rating_input feedback_type comment : string)
    (reply : outcome value) (p : page) (n : Z) :
  ParseInt.parseInt rating_input = Some n → (0 ≤ n)%Z →
  let p' := snd (handleFeedback rating_input feedback_type comment reply p) in
  if (n <? 1)%Z then
    p' = grown p (state p)
           [ElementMessage "feedback-modal-message" "Please select a rating" "error"]
    ∧ network_calls p' = network_calls p
  else
    network_calls p'
    = (network_calls p
       ++ [Requested (FeedbackAPI.create
                        (VObj [("rating", VNum n); ("feedback_type", VStr feedback_type);
                               ("comment", VStr comment)]))])%list.
Proof.
  intros Hparse Hn p'. subst p'. destruct (Z.ltb_spec n 1) as [Hlt | Hge].
  - assert (n = 0%Z) as -> by lia. rewrite handleFeedback_zero by done.
    split; [done|]. rewrite emit_grown. unfold grown; simpl.
    rewrite network_calls_app; simpl. by rewrite app_nil_r.
  - rewrite handleFeedback_nonzero by (rewrite Hparse; intros [= ->]; lia).
    by rewrite Hparse.
Qed.

(** ** New requests *)

Lemma reloadRequests_runs (dom : search_inputs) (refetch_reply : outcome (list record))
    (q : page) :
  ∃ added,
    snd (reloadRequests dom refetch_reply q)
    = grown q
        (match refetch_reply with
         | Resolved fetched => set_requests fetched (state q)
         | Rejected _ => state q
         end) added
    ∧ List.filter is_network added = [Requested RequestAPI.getMyRequests].
Proof.
  unfold reloadRequests. destruct refetch_reply as [fetched | message]; run.
  - pass display_updateSummaryCards. pass (display_renderRequests dom).
    eexists. unfold grown; simpl. rewrite <- !app_assoc. split; [done|].
    rewrite !List.filter_app; simpl.
    repeat match goal with
           | Hoff : offline ?a |- _ => rewrite (offline_no_calls a Hoff); clear Hoff
           end.
    done.
  - eexists. unfold grown; simpl. rewrite <- !app_assoc. split; done.
Qed.

Ltac reloaded :=
  match goal with
  | |- context [reloadRequests ?d ?r ?q] =>
      let Hnet := fresh "Hnet" in
      destruct (reloadRequests_runs d r q) as (? & -> & Hnet)
  end.

(** C8, amended: after a successful creation the complaints, payments,
    notifications and filters are what they were. When no file was chosen
    or its upload succeeded, the timer the handler sets refetches the
    requests and, if that refetch succeeds, replaces [state.requests] with
    the result. When the upload of a chosen file fails, the failure is
    shown as an error in the form's message area, as a failed creation
    would be, and the created request is not rolled back: the creation and
    the upload are the only requests sent, and the dashboard state is what
    it was. No other timer is assumed to be waiting. *)
Theorem handleNewRequest_refresh (request_type description : string)
    (attachment : option string) (created : record) (upload_reply : outcome value)
    (refetch_reply : outcome (list record)) (dom : search_inputs) (p : page) :
  pending p = [] →
  let requestData :=
    VObj [("request_type", VStr request_type); ("description", VStr description)] in
  let handled :=
    snd (handleNewRequest request_type description attachment (Resolved created)
           upload_reply p) in
  let final := fire_pending dom refetch_reply handled in
  (complaints (state final) = complaints (state p)
   ∧ payments (state final) = payments (state p)
   ∧ notifications (state final) = notifications (state p)
   ∧ filters (state final) = filters (state p))
  ∧ match attachment, upload_reply with
    | Some file, Rejected message =>
        state final = state p
        ∧ network_calls final
          = (network_calls p
             ++ [Requested (RequestAPI.create requestData);
                 Uploaded (obj_get created "request_id") file])%list
        ∧ ElementMessage "request-modal-message" message "error" ∈ events final
    | _, _ =>
        state final
        = match refetch_reply with
          | Resolved fetched => set_requests fetched (state p)
          | Rejected _ => state p
          end
        ∧ network_calls final
          = (network_calls p
             ++ [Requested (RequestAPI.create requestData)]
             ++ uploads attachment created
             ++ [Requested RequestAPI.getMyRequests])%list
    end.
Proof.
  intros Hpending requestData handled final. subst handled final requestData.
  unfold handleNewRequest, fire_pending.
  destruct attachment as [file|], upload_reply as [uploaded | message];
    run; rewrite Hpending; simpl.
  all: try (reloaded; simpl;
            (split; [by destruct refetch_reply|]); (split; [done|]);
            unfold network_calls; simpl;
            rewrite !List.filter_app; simpl;
            match goal with Hnet : List.filter is_network _ = _ |- _ => rewrite Hnet end;
            by rewrite ?app_nil_r, <- ?app_assoc).
  split; [done|]. split; [done|]. split.
  - unfold network_calls; simpl. rewrite !List.filter_app; simpl.
    by rewrite ?app_nil_r, <- ?app_assoc.
  - rewrite !list_elem_of_In, !in_app_iff; simpl. tauto.
Qed.

(** ** Filter buttons *)

(** What [renderRequests] puts on the page is the derived view of the
    requests. *)
Lemma renderRequests_shows (dom : search_inputs) (p : page) :
  renderRequests dom p
  = show_list "requests-list" "No requests found"
      (derived_view request_fields (Filters.requests (filters (state p)))
         (request_search dom) (requests (state p))) p.
Proof. reflexivity. Qed.

(** Choosing a filter changes the filter and nothing the state caches. *)
Lemma filterRequests_keeps_collections (status : string) (dom : search_inputs) (p : page) :
  let p' := snd (filterRequests status dom p) in
  Filters.requests (filters (state p')) = status
  ∧ requests (state p') = requests (state p)
  ∧ complaints (state p') = complaints (state p)
  ∧ payments (state p') = payments (state p)
  ∧ notifications (state p') = notifications (state p).
Proof.
  unfold filterRequests; run. pass (display_renderRequests dom). done.
Qed.

End Handlers.

Example markNotificationRead_rejected :
  state (snd (markNotificationRead (VNum 3)
                (Rejected "Cannot connect to server. Please check your connection.")
                notified_page))
  = state notified_page.
Proof. reflexivity. Qed.

Example markNotificationRead_resolved :
  notifications
    (state (snd (markNotificationRead (VNum 3) (Resolved (VObj []))
                   notified_page)))
  = [[("notification_id", VNum 3); ("title", VStr "Request approved");
      ("is_read", VBool true)]].
Proof. reflexivity. Qed.

Lemma handleFeedback_requires_rating_witness :
  (snd (handleFeedback "0" "SERVICE" "Quick answer" (Resolved VNull) fresh_page)
   = grown fresh_page initial_state
       [ElementMessage "feedback-modal-message" "Please select a rating" "error"]
   ∧ network_calls
       (snd (handleFeedback "0" "SERVICE" "Quick answer" (Resolved VNull) fresh_page))
     = [])
  ∧ network_calls
      (snd (handleFeedback "4" "SERVICE" "Quick answer" (Resolved VNull) fresh_page))
    = [Requested (FeedbackAPI.create
                    (VObj [("rating", VNum 4); ("feedback_type", VStr "SERVICE");
                           ("comment", VStr "Quick answer")]))].
Proof.
  split.
  - apply (handleFeedback_requires_rating "0" "SERVICE" "Quick answer" (Resolved VNull)
             fresh_page 0); [reflexivity | lia].
  - apply (handleFeedback_requires_rating "4" "SERVICE" "Quick answer" (Resolved VNull)
             fresh_page 4); [reflexivity | lia].
Defined.

(** C7 as stated fails: a rating of -1, and a rating field that is empty
    (so that it parses to [NaN]), are below 1 and not numeric, yet the
    handler calls the feedback API with them. *)
Lemma handleFeedback_negative_rating_sent :
  (ParseInt.parseInt "-1" = Some (-1)%Z ∧ (-1 < 1)%Z
   ∧ network_calls (snd (handleFeedback "-1" "SERVICE" "" (Resolved VNull) fresh_page))
     = [Requested (FeedbackAPI.create
                     (VObj [("rating", VNum (-1)); ("feedback_type", VStr "SERVICE");
                            ("comment", VStr "")]))])
  ∧ (ParseInt.parseInt "" = None
     ∧ network_calls (snd (handleFeedback "" "SERVICE" "" (Resolved VNull) fresh_page))
       = [Requested (FeedbackAPI.create
                       (VObj [("rating", VNaN); ("feedback_type", VStr "SERVICE");
                              ("comment", VStr "")]))]).
Proof. repeat split; reflexivity. Qed.

Lemma handleNewRequest_refresh_witness :
  let final :=
    fire_pending (host := bare_host) empty_boxes (Resolved [sample_request])
      (snd (handleNewRequest "Permit" "Garden fence" None (Resolved sample_request)
              (Resolved VNull) fresh_page)) in
  state final = set_requests [sample_request] initial_state.
Proof.
  destruct (handleNewRequest_refresh (host := bare_host) "Permit" "Garden fence" None
              sample_request (Resolved VNull) (Resolved [sample_request]) empty_boxes
              fresh_page eq_refl) as (_ & Hstate & _).
  exact Hstate.
Defined.

(** C8 as stated fails: the request is created, the upload of the chosen
    file fails, and then the requests are not refetched (the cached list
    stays empty although the server now has the request), and the failure
    appears as an ordinary error message. *)
Lemma handleNewRequest_upload_failure_no_refresh :
  let handled :=
    snd (handleNewRequest "Permit" "Garden fence" (Some "plan.pdf")
           (Resolved sample_request) (Rejected "File upload failed") fresh_page) in
  let final := fire_pending (host := bare_host) empty_boxes (Resolved [sample_request]) handled in
  pending handled = []
  ∧ requests (state final) = []
  ∧ events final
    = [ SubmitButton true "Submitting...";
        Requested (RequestAPI.create
                     (VObj [("request_type", VStr "Permit");
                            ("description", VStr "Garden fence")]));
        Uploaded (VNum 7) "plan.pdf";
        ElementMessage "request-modal-message" "File upload failed" "error";
        SubmitButton false "Submit Request" ].
Proof. repeat split; reflexivity. Qed.

(** * Further properties of the session store *)

Lemma isAuthenticated_clearAuthToken (w : browser) :
  isAuthenticated (clearAuthToken w) = false.
Proof.
  unfold isAuthenticated, getAuthToken.
  destruct (clearAuthToken_cleared w "access_token" (or_introl eq_refl)) as [-> ->].
  reflexivity.
Qed.

(** Clearing the session removes the token and the user data and nothing
    else: every other entry of both scopes, the origin and the address
    stay, and the browser is anonymous afterwards. *)
Theorem clearAuthToken_only_session_keys (w : browser) (key : string) :
  key ≠ "access_token" → key ≠ "userData" →
  localStorage (clearAuthToken w) !! key = localStorage w !! key
  ∧ sessionStorage (clearAuthToken w) !! key = sessionStorage w !! key
  ∧ href (clearAuthToken w) = href w
  ∧ origin (clearAuthToken w) = origin w
  ∧ isAuthenticated (clearAuthToken w) = false.
Proof.
  intros Htoken Hdata. unfold clearAuthToken at 1 2 3 4; simpl.
  rewrite !lookup_delete_ne by done.
  repeat split. apply isAuthenticated_clearAuthToken.
Qed.

Lemma clearAuthToken_only_session_keys_witness :
  sessionStorage
    (clearAuthToken (session_setItem "returnUrl" "/frontend/citizen/dashboard.html"
                       stale_browser)) !! "returnUrl"
  = Some "/frontend/citizen/dashboard.html".
Proof.
  destruct (clearAuthToken_only_session_keys
              (session_setItem "returnUrl" "/frontend/citizen/dashboard.html" stale_browser)
              "returnUrl") as (_ & Hsession & _); [discriminate | discriminate |].
  rewrite Hsession. reflexivity.
Defined.

(** Storing a token and reading it back: with [remember], or when
    [localStorage] holds no token, [getAuthToken] returns the text of the
    token just stored, and the browser counts as authenticated. *)
Theorem setAuthToken_then_getAuthToken (token : value) (remember : bool) (w : browser) :
  to_string token ≠ "" →
  remember = true
  ∨ localStorage w !! "access_token" = None
  ∨ localStorage w !! "access_token" = Some "" →
  getAuthToken (setAuthToken token remember w) = Some (to_string token)
  ∧ isAuthenticated (setAuthToken token remember w) = true.
Proof.
  intros Hne Hcase.
  assert (getAuthToken (setAuthToken token remember w) = Some (to_string token)) as Hget.
  { unfold getAuthToken. rewrite setAuthToken_session, setAuthToken_local.
    destruct remember.
    - rewrite lookup_insert_eq. by apply item_or_present.
    - destruct Hcase as [? | [-> | ->]]; [done | |]; simpl;
        by destruct (to_string token). }
  split; [done|]. unfold isAuthenticated. rewrite Hget.
  by destruct (to_string token).
Qed.

Lemma setAuthToken_then_getAuthToken_witness :
  getAuthToken (setAuthToken (VStr "fresh-token") false fresh_browser) = Some "fresh-token"
  ∧ isAuthenticated (setAuthToken (VStr "fresh-token") false fresh_browser) = true.
Proof.
  apply setAuthToken_then_getAuthToken; [discriminate|].
  right; left. reflexivity.
Defined.

(** A visitor without a token who is sent to the login page comes back to
    where the page asked: [requireAuth] remembers the return address,
    [getReturnUrl] hands it out once, and after that it gives the
    dashboard. A visitor with a token passes [requireAuth] untouched. *)
Theorem requireAuth_then_getReturnUrl (redirectUrl here : string) (w : browser) :
  redirectUrl ≠ "" →
  (isAuthenticated w = false →
   let stopped := requireAuth (Some redirectUrl) here w in
   fst stopped = false
   ∧ href (snd stopped) = "/frontend/citizen/auth.html"
   ∧ localStorage (snd stopped) = localStorage w
   ∧ fst (getReturnUrl (snd stopped)) = redirectUrl
   ∧ fst (getReturnUrl (snd (getReturnUrl (snd stopped))))
     = "/frontend/citizen/dashboard.html")
  ∧ (isAuthenticated w = true → requireAuth (Some redirectUrl) here w = (true, w)).
Proof.
  intros Hne. unfold requireAuth. split; intros ->; simpl; [|done].
  repeat split.
  - unfold getReturnUrl; simpl. rewrite lookup_insert_eq; simpl.
    by destruct redirectUrl.
  - unfold getReturnUrl; simpl. by rewrite lookup_delete_eq.
Qed.

Lemma requireAuth_then_getReturnUrl_witness :
  fst (getReturnUrl (snd (requireAuth (Some "/frontend/citizen/payments.html")
                            "/frontend/citizen/dashboard.html" fresh_browser)))
  = "/frontend/citizen/payments.html".
Proof.
  destruct (requireAuth_then_getReturnUrl "/frontend/citizen/payments.html"
              "/frontend/citizen/dashboard.html" fresh_browser) as [Hstopped _];
    [discriminate|].
  destruct (Hstopped eq_refl) as (_ & _ & _ & Hback & _). exact Hback.
Defined.

Section SessionFlows.
Context {host : Host}.

Lemma getAuthToken_setUserData (userData : value) (remember : bool) (w : browser) :
  getAuthToken (setUserData userData remember w) = getAuthToken w.
Proof.
  unfold getAuthToken, setUserData.
  destruct remember; simpl; by rewrite !lookup_insert_ne.
Qed.


(** [requireRole] lets a visitor through only if a token is stored and the
    cached role is the required one, and then changes nothing and shows
    nothing. A visitor without a token is sent to the login page, with the
    current address remembered and no "access denied" alert. *)
Theorem requireRole_gate (requiredRole redirectUrl here : string) (w : browser) :
  (isAuthenticated w = false →
   requireRole requiredRole redirectUrl here w
   = (Resolved false,
      set_href "/frontend/citizen/auth.html"
        (session_setItem "returnUrl" (or_default None here) w),
      []))
  ∧ (∀ w' alerts,
       requireRole requiredRole redirectUrl here w = (Resolved true, w', alerts) →
       w' = w ∧ alerts = [] ∧ isAuthenticated w = true
       ∧ ∃ userData, getUserData w = Resolved userData
                     ∧ strict_eq (opt_get userData "role") (VStr requiredRole) = true).
Proof.
  unfold requireRole, requireAuth. split.
  - by intros ->.
  - intros w' alerts. destruct (isAuthenticated w); simpl; [|done].
    unfold hasRole. destruct (getUserData w) as [userData | reason]; [|done].
    destruct (truthy userData) eqn:Huser; simpl.
    + destruct (strict_eq _ _) eqn:Hrole; simpl; [|done].
      intros [= <- <-]. repeat split. by exists userData.
    + rewrite Huser; simpl. done.
Qed.

(** After [initAuth] the answer it gave is whether the browser holds a
    token: [true] leaves the token in place, [false] leaves none. An
    anonymous browser is answered [false] without any request. *)
Theorem initAuth_agrees_with_store (reply : outcome record) (w : browser) :
  let result := initAuth reply w in
  fst (fst result) = isAuthenticated (snd (fst result))
  ∧ (isAuthenticated w = false → result = (false, w, [])).
Proof.
  unfold initAuth. destruct (isAuthenticated w) eqn:Hauth; simpl.
  - unfold getCurrentUser. destruct reply as [data | reason]; simpl.
    + split; [|done]. unfold isAuthenticated.
      rewrite getAuthToken_setUserData. exact (eq_sym Hauth).
    + destruct (_ || _); simpl; split; try done;
        by rewrite isAuthenticated_clearAuthToken.
  - by rewrite Hauth.
Qed.

(** A refresh of the current user always writes the user data to both
    scopes: after a session-only login that was answered [data], a
    successful [getCurrentUser] puts user data into [localStorage] while the
    token there stays what it was. *)
Theorem getCurrentUser_remembers_user (data fetched : record) (w : browser) :
  let w1 := snd (login (Resolved data) false w) in
  let '(answer, w2) := getCurrentUser (Resolved fetched) w1 in
  ∃ userData,
    answer = Resolved userData
    ∧ opt_get userData "profile" = js_or (obj_get fetched "profile") (VObj [])
    ∧ localStorage w2 !! "userData" = Some (JSON_stringify userData)
    ∧ sessionStorage w2 !! "userData" = Some (JSON_stringify userData)
    ∧ localStorage w2 !! "access_token" = localStorage w !! "access_token".
Proof.
  simpl. eexists. split; [reflexivity|]. repeat split; by simplify_map_eq.
Qed.

(** A failed refresh ends the session exactly when its message mentions
    401 or an expired session; any other failure leaves the browser as it
    was. The failure is passed on in both cases. *)
Theorem getCurrentUser_failure (reason : string) (w : browser) :
  fst (getCurrentUser (Rejected reason) w) = Rejected reason
  ∧ (Str.includes reason "401" = false →
     Str.includes reason "Session expired" = false →
     snd (getCurrentUser (Rejected reason) w) = w)
  ∧ (Str.includes reason "401" = true ∨ Str.includes reason "Session expired" = true →
     isAuthenticated (snd (getCurrentUser (Rejected reason) w)) = false
     ∧ href (snd (getCurrentUser (Rejected reason) w)) = "/frontend/citizen/auth.html").
Proof.
  unfold getCurrentUser. split; [by destruct (_ || _)|]. split.
  - by intros -> ->.
  - intros Hexpired.
    assert (Str.includes reason "401" || Str.includes reason "Session expired" = true)
      as -> by (destruct Hexpired as [-> | ->]; by rewrite ?orb_true_r).
    simpl. split; [apply isAuthenticated_clearAuthToken | done].
Qed.

End SessionFlows.


Lemma requireRole_gate_witness :
  requireRole (host := bare_host) "citizen" "/frontend/citizen/auth.html"
    "/frontend/citizen/dashboard.html" fresh_browser
  = (Resolved false,
     set_href "/frontend/citizen/auth.html"
       (session_setItem "returnUrl" "/frontend/citizen/dashboard.html" fresh_browser),
     []).
Proof.
  destruct (requireRole_gate (host := bare_host) "citizen" "/frontend/citizen/auth.html"
              "/frontend/citizen/dashboard.html" fresh_browser) as [Hanon _].
  apply Hanon. reflexivity.
Defined.

Lemma initAuth_agrees_with_store_witness :
  initAuth (host := bare_host) (Resolved [("role", VStr "citizen")]) fresh_browser
  = (false, fresh_browser, []).
Proof.
  apply (initAuth_agrees_with_store (host := bare_host)). reflexivity.
Defined.

Lemma getCurrentUser_failure_witness :
  snd (getCurrentUser (host := bare_host) (Rejected "Request failed") stale_browser)
  = stale_browser.
Proof.
  destruct (getCurrentUser_failure (host := bare_host) "Request failed" stale_browser)
    as (_ & Hkeep & _).
  apply Hkeep; reflexivity.
Defined.

(** * Further properties of the HTTP wrapper *)

(** A request made while no token is stored carries no [Authorization]
    header; with or without a token, the address is the API base followed
    by the endpoint, and the caller's method and body go out unchanged. *)
Theorem apiRequest_anonymous (c : api_call) (w : browser) :
  isAuthenticated w = false →
  headers (opts c) !! "Authorization" = None →
  headers (config (apiRequest c w)) !! "Authorization" = None
  ∧ url (apiRequest c w) = API_BASE_URL w ++ endpoint c
  ∧ method (config (apiRequest c w)) = method (opts c)
  ∧ body (config (apiRequest c w)) = body (opts c).
Proof.
  intros Hanon Hcaller. repeat split. unfold apiRequest; simpl.
  rewrite lookup_union_r by done.
  unfold isAuthenticated in Hanon.
  destruct (getAuthToken w) as [token|]; [|by simplify_map_eq].
  destruct token; [by simplify_map_eq | done].
Qed.

Lemma apiRequest_anonymous_witness :
  headers (config (apiRequest RequestAPI.getMyRequests fresh_browser)) !! "Authorization"
  = None.
Proof. by apply apiRequest_anonymous. Defined.



(** Only a decoded 401 answer ends the session: it clears token and user
    data in both scopes, turns to the login page and fails with the
    session message, whatever its body says. Every other answer, a 401
    whose body cannot be decoded included, leaves the browser as it was. *)
Theorem apiRequest_settle_session {A} (answer : http_answer A) (w : browser) :
  (refused_status answer = Some 401%Z →
     fst (apiRequest_settle answer w) = Rejected "Session expired. Please login again."
     ∧ isAuthenticated (snd (apiRequest_settle answer w)) = false
     ∧ localStorage (snd (apiRequest_settle answer w)) !! "userData" = None
     ∧ sessionStorage (snd (apiRequest_settle answer w)) !! "userData" = None
     ∧ href (snd (apiRequest_settle answer w)) = "/frontend/citizen/auth.html")
  ∧ (refused_status answer ≠ Some 401%Z → snd (apiRequest_settle answer w) = w).
Proof.
  split.
  - intros Hstatus. unfold apiRequest_settle.
    destruct answer as [r | r | data | status data | status r]; simpl in Hstatus;
      try done; injection Hstatus as ->; simpl; repeat split;
      first [ apply isAuthenticated_clearAuthToken
            | apply (clearAuthToken_cleared w "userData"); by right ].
  - intros Hother. unfold apiRequest_settle.
    destruct answer as [r | r | data | status data | status r]; simpl; try done.
    1,2: by destruct (String.eqb r "Failed to fetch").
    all: destruct (Z.eqb_spec status 401) as [-> | _]; [by destruct Hother|].
    all: simpl; by destruct (String.eqb _ "Failed to fetch").
Qed.

Lemma apiRequest_settle_session_witness :
  snd (apiRequest_settle (Garbled "Unexpected end of JSON input" : http_answer value)
         stale_browser)
  = stale_browser.
Proof.
  apply (apiRequest_settle_session
           (Garbled "Unexpected end of JSON input" : http_answer value) stale_browser).
  discriminate.
Defined.

(** * Further properties of the dashboard *)

Lemma filter_idem {A} (f : A → bool) (l : list A) :
  List.filter f (List.filter f l) = List.filter f l.
Proof.
  induction l as [|a l IH]; simpl; [done|].
  destruct (f a) eqn:Hf; simpl; rewrite ?Hf; congruence.
Qed.

Lemma filter_pair_idem {A} (f g : A → bool) (l : list A) :
  List.filter f (List.filter g (List.filter f (List.filter g l)))
  = List.filter f (List.filter g l).
Proof.
  induction l as [|a l IH]; simpl; [done|].
  destruct (g a) eqn:Hg; simpl; [|done].
  destruct (f a) eqn:Hf; simpl; rewrite ?Hg; simpl; rewrite ?Hf; congruence.
Qed.

Lemma filter_sublist_weaker {A} (f g : A → bool) (l : list A) :
  (∀ a, f a = true → g a = true) →
  List.filter f l `sublist_of` List.filter g l.
Proof.
  intros Hfg. induction l as [|a l IH]; simpl; [constructor|].
  destruct (f a) eqn:Hf.
  - rewrite (Hfg a Hf). by constructor.
  - destruct (g a); [by constructor | done].
Qed.

Lemma toLowerCase_idem (s : string) : Str.toLowerCase (Str.toLowerCase s) = Str.toLowerCase s.
Proof.
  induction s as [|c s IH]; simpl; [done|]. rewrite IH. f_equal.
  unfold Str.lower_char.
  destruct (Nat.leb 65 (nat_of_ascii c) && Nat.leb (nat_of_ascii c) 90) eqn:Hup; [|by rewrite Hup].
  apply andb_true_iff in Hup as [Hlo Hhi].
  apply Nat.leb_le in Hlo, Hhi.
  rewrite nat_ascii_embedding by lia.
  replace (Nat.leb (nat_of_ascii c + 32) 90) with false; [by rewrite andb_false_r|].
  symmetry. apply Nat.leb_gt. lia.
Qed.

Lemma toLowerCase_empty (s : string) :
  Str.is_empty (Str.toLowerCase s) = Str.is_empty s.
Proof. by destruct s. Qed.

Section MoreSearch.
Context {host : Host}.

(** The search ignores the case of the term: two terms that are equal once
    lower-cased select the same items. In particular a term and its
    lower-cased form do. *)
Theorem filterBySearch_ignores_case (items : list record) (term1 term2 : string)
    (fields : list string) :
  Str.toLowerCase term1 = Str.toLowerCase term2 →
  filterBySearch items term1 fields = filterBySearch items term2 fields
  ∧ filterBySearch items (Str.toLowerCase term1) fields = filterBySearch items term1 fields.
Proof.
  intros Hsame. unfold filterBySearch.
  rewrite toLowerCase_idem, toLowerCase_empty.
  rewrite <- (toLowerCase_empty term1), <- (toLowerCase_empty term2), Hsame.
  done.
Qed.

(** Searching more fields never loses a match: what a search over some
    fields finds is a subsequence of what the search over those and further
    fields finds. *)
Theorem filterBySearch_more_fields (items : list record) (searchTerm : string)
    (fields extra : list string) :
  filterBySearch items searchTerm fields
    `sublist_of` filterBySearch items searchTerm (fields ++ extra).
Proof.
  unfold filterBySearch. destruct (Str.is_empty searchTerm); [done|].
  apply filter_sublist_weaker. intros item. unfold item_matches.
  rewrite existsb_app. by intros ->.
Qed.

(** What a render function shows is a subsequence of the cached collection;
    with the filter on "all" and an empty search box it is the whole
    collection; and filtering and searching the shown list again with the
    same settings changes nothing. *)
Theorem derived_view_selects (fields : list string) (token box : string)
    (collection : list record) :
  derived_view fields token box collection `sublist_of` collection
  ∧ derived_view fields "all" "" collection = collection
  ∧ derived_view fields token box (derived_view fields token box collection)
    = derived_view fields token box collection.
Proof.
  split; [|split; [reflexivity|]].
  - unfold derived_view, by_search, by_status, filterBySearch.
    destruct (Str.is_empty _), (String.eqb token "all");
      try done; try apply filter_sublist.
    etrans; apply filter_sublist.
  - unfold derived_view, by_search, by_status, filterBySearch.
    destruct (Str.is_empty _), (String.eqb token "all");
      rewrite ?filter_idem; try done.
    apply filter_pair_idem.
Qed.

End MoreSearch.

Lemma filterBySearch_ignores_case_witness :
  filterBySearch (host := bare_host) [sample_request] "PERM" ["request_type"]
  = filterBySearch (host := bare_host) [sample_request] "perm" ["request_type"].
Proof. by apply filterBySearch_ignores_case. Defined.


(** The number [updateSummaryCards] writes on the badge is the number of
    unread notifications in the cache. *)
Lemma updateSummaryCards_badge (p : page) :
  ∃ before,
    events (snd (updateSummaryCards p))
    = (before ++ [SetText "notif-badge"
                    (pretty (Z.of_nat (unread_count (notifications (state p)))))])%list.
Proof. eexists. reflexivity. Qed.

Lemma renderNotifications_shows (p : page) :
  renderNotifications p
  = show_list "notifications-container" "No notifications"
      (notifications_view (Filters.notifications (filters (state p)))
         (notifications (state p))) p.
Proof. reflexivity. Qed.

Lemma network_calls_grown (p : page) (s : dash_state) (added : list event) :
  offline added → network_calls (grown p s added) = network_calls p.
Proof.
  intros Hoff. unfold grown. rewrite network_calls_app, offline_no_calls by done.
  apply app_nil_r.
Qed.

Lemma obj_set_idem (n : record) (key : string) (v : value) :
  obj_set (obj_set n key v) key v = obj_set n key v.
Proof.
  induction n as [|[k w] n IH]; simpl.
  - by rewrite String.eqb_refl.
  - destruct (String.eqb k key) eqn:Hk; simpl; rewrite Hk; [done | by rewrite IH].
Qed.

Lemma obj_get_set_ne (n : record) (key other : string) (v : value) :
  key ≠ other → obj_get (obj_set n key v) other = obj_get n other.
Proof.
  intros Hne. unfold obj_get.
  assert (String.eqb key other = false) as Hko by by apply String.eqb_neq.
  induction n as [|[k w] n IH]; simpl.
  - by rewrite Hko.
  - destruct (String.eqb k key) eqn:Hk; simpl.
    + apply String.eqb_eq in Hk as ->. by rewrite Hko.
    + destruct (String.eqb k other); [done | exact IH].
Qed.

Lemma mark_first_read_idem (id : value) (l : list record) :
  mark_first_read id (mark_first_read id l) = mark_first_read id l.
Proof.
  induction l as [|n l IH]; simpl; [done|].
  destruct (strict_eq (obj_get n "notification_id") id) eqn:Hn; simpl.
  - rewrite obj_get_set_ne by done. by rewrite Hn, obj_set_idem.
  - by rewrite Hn, IH.
Qed.

Lemma mark_first_read_unread (id : value) (l : list record) :
  (unread_count (mark_first_read id l) ≤ unread_count l)%nat
  ∧ (unread_count l ≤ S (unread_count (mark_first_read id l)))%nat.
Proof.
  unfold unread_count. induction l as [|n l IH]; simpl; [lia|].
  destruct (strict_eq (obj_get n "notification_id") id); simpl.
  - assert (is_read (obj_set n "is_read" (VBool true)) = true) as ->
      by (unfold is_read; by rewrite obj_get_set).
    destruct (is_read n); simpl; lia.
  - destruct (is_read n); simpl; lia.
Qed.

Lemma try_finally_emit_last {A} (body : M A) (e : event) (q : page) :
  events (snd (try_finally body (emit e) q)) = (events (snd (body q)) ++ [e])%list.
Proof. unfold try_finally. by destruct (body q). Qed.

Section MoreHandlers.
Context {host : Host}.
#[local] Opaque updateSummaryCards renderNotifications renderRequests renderComplaints
  renderPayments updateWelcome.

(** A filter button sets its own filter and nothing else: the cached
    collections, the profile, the tab and the three other filters are what
    they were, and no request is sent. *)
Theorem filter_buttons_keep_data (token : string) (dom : search_inputs) (p : page) :
  let after_requests := snd (filterRequests token dom p) in
  let after_complaints := snd (filterComplaints token dom p) in
  let after_payments := snd (filterPayments token dom p) in
  let after_notifications := snd (filterNotifications token p) in
  (same_data (state p) (state after_requests)
   ∧ network_calls after_requests = network_calls p
   ∧ filters (state after_requests)
     = {| Filters.requests := token;
          Filters.complaints := Filters.complaints (filters (state p));
          Filters.payments := Filters.payments (filters (state p));
          Filters.notifications := Filters.notifications (filters (state p)) |})
  ∧ (same_data (state p) (state after_complaints)
     ∧ network_calls after_complaints = network_calls p
     ∧ filters (state after_complaints)
       = {| Filters.requests := Filters.requests (filters (state p));
            Filters.complaints := token;
            Filters.payments := Filters.payments (filters (state p));
            Filters.notifications := Filters.notifications (filters (state p)) |})
  ∧ (same_data (state p) (state after_payments)
     ∧ network_calls after_payments = network_calls p
     ∧ filters (state after_payments)
       = {| Filters.requests := Filters.requests (filters (state p));
            Filters.complaints := Filters.complaints (filters (state p));
            Filters.payments := token;
            Filters.notifications := Filters.notifications (filters (state p)) |})
  ∧ (same_data (state p) (state after_notifications)
     ∧ network_calls after_notifications = network_calls p
     ∧ filters (state after_notifications)
       = {| Filters.requests := Filters.requests (filters (state p));
            Filters.complaints := Filters.complaints (filters (state p));
            Filters.payments := Filters.payments (filters (state p));
            Filters.notifications := token |}).
Proof.
  unfold filterRequests, filterComplaints, filterPayments, filterNotifications; run.
  pass (display_renderRequests dom). pass (display_renderComplaints dom).
  pass (display_renderPayments dom). pass display_renderNotifications.
  unfold same_data, network_calls; simpl.
  rewrite !List.filter_app.
  repeat match goal with
         | Hoff : offline ?a |- _ => rewrite (offline_no_calls a Hoff); clear Hoff
         end.
  rewrite !app_nil_r. done.
Qed.

Lemma markNotificationRead_state (notificationId : value) (data : value) (p : page) :
  state (snd (markNotificationRead notificationId (Resolved data) p))
  = set_notifications (mark_first_read notificationId (notifications (state p))) (state p).
Proof.
  unfold markNotificationRead; run. rewrite <- mark_first_read_find.
  destruct (list_find _ _) as [[i notif]|]; simpl.
  - pass display_updateSummaryCards. pass display_renderNotifications. done.
  - by rewrite set_notifications_same.
Qed.

(** Marking a notification as read a second time changes nothing, and one
    marking lowers the number of unread notifications by at most one and
    never raises it. *)
Theorem markNotificationRead_again (notificationId first second : value) (p : page) :
  let once := snd (markNotificationRead notificationId (Resolved first) p) in
  let twice := snd (markNotificationRead notificationId (Resolved second) once) in
  state twice = state once
  ∧ (unread_count (notifications (state once))
     ≤ unread_count (notifications (state p)))%nat
  ∧ (unread_count (notifications (state p))
     ≤ S (unread_count (notifications (state once))))%nat.
Proof.
  simpl. rewrite !markNotificationRead_state. simpl. split.
  - by rewrite mark_first_read_idem.
  - apply mark_first_read_unread.
Qed.

(** When the creation of a request fails, the handler stops there: no
    upload is attempted even if a file was chosen, no reload is scheduled,
    the dashboard state is untouched, the failure is shown in the form, and
    the submit button is enabled again. *)
Theorem handleNewRequest_creation_failure (request_type description : string)
    (attachment : option string) (reason : string) (upload_reply : outcome value)
    (p : page) :
  handleNewRequest request_type description attachment (Rejected reason) upload_reply p
  = (Resolved (),
     grown p (state p)
       [ SubmitButton true "Submitting...";
         Requested (RequestAPI.create
                      (VObj [("request_type", VStr request_type);
                             ("description", VStr description)]));
         ElementMessage "request-modal-message" reason "error";
         SubmitButton false "Submit Request" ]).
Proof.
  unfold handleNewRequest, grown; run. by rewrite <- !app_assoc.
Qed.

(** The submit buttons are always enabled again: whatever the creation, the
    upload and the feedback call do, the handlers return normally and the
    last thing they do is to restore the button. For the feedback form
    this is when the rating got past the check. *)
Theorem submit_button_restored (request_type description : string)
    (attachment : option string) (create_reply : outcome record)
    (upload_reply : outcome value) (rating_input feedback_type comment : string)
    (reply : outcome value) (p : page) :
  (∃ before,
     handleNewRequest request_type description attachment create_reply upload_reply p
     = (Resolved (),
        {| state := state p;
           events := before ++ [SubmitButton false "Submit Request"];
           pending := pending (snd (handleNewRequest request_type description attachment
                                      create_reply upload_reply p)) |}))
  ∧ (ParseInt.parseInt rating_input ≠ Some 0%Z →
     ∃ before,
       handleFeedback rating_input feedback_type comment reply p
       = (Resolved (),
          {| state := state p;
             events := before ++ [SubmitButton false "Submit Feedback"];
             pending := pending (snd (handleFeedback rating_input feedback_type comment
                                        reply p)) |})).
Proof.
  split.
  - unfold handleNewRequest.
    destruct create_reply as [created | reason], attachment as [file|],
      upload_reply as [uploaded | failure]; run; eexists; reflexivity.
  - intros Hnz. unfold handleFeedback.
    assert (strict_eq (number (ParseInt.parseInt rating_input)) (VNum 0) = false) as ->.
    { destruct (ParseInt.parseInt rating_input) as [n|]; simpl; [|done].
      apply Z.eqb_neq. congruence. }
    destruct reply; run; eexists; reflexivity.
Qed.


(** [loadDashboardData] never throws, and hiding the loading indicator is
    the last thing it does, whatever the cache and the five fetches do. *)
Theorem loadDashboardData_always_returns (w : browser) (dom : search_inputs)
    (profile_reply : outcome value)
    (requests_reply complaints_reply payments_reply notifications_reply
       : outcome (list record)) (p : page) :
  let result := loadDashboardData w dom profile_reply requests_reply complaints_reply
                  payments_reply notifications_reply p in
  fst result = Resolved ()
  ∧ ∃ before, events (snd result) = (before ++ [LoadingHidden])%list.
Proof.
  simpl. split.
  - destruct (getUserData w) as [userData | reason] eqn:Hcache.
    + destruct (loadDashboardData_performs w dom userData profile_reply requests_reply
                  complaints_reply payments_reply notifications_reply p Hcache)
        as (added & -> & _).
      done.
    + unfold loadDashboardData. rewrite Hcache. by run.
  - unfold loadDashboardData. unfold mbind at 1, M_bind at 1.
    rewrite emit_grown. cbv beta iota.
    rewrite try_finally_emit_last. by eexists.
Qed.

End MoreHandlers.

Lemma submit_button_restored_witness :
  ∃ before,
    handleFeedback "5" "SERVICE" "Thanks" (Rejected "Request failed") fresh_page
    = (Resolved (),
       {| state := initial_state;
          events := before ++ [SubmitButton false "Submit Feedback"];
          pending := [] |}).
Proof.
  destruct (submit_button_restored "Permit" "Garden fence" None
              (Resolved sample_request) (Resolved VNull) "5" "SERVICE" "Thanks"
              (Rejected "Request failed") fresh_page) as [_ Hfeedback].
  apply Hfeedback. discriminate.
Defined.


(** * Properties of the form helpers *)

Lemma of_string_text (l : list ascii) : Chars.of_string (Chars.text l) = l.
Proof. apply list_ascii_of_string_of_list_ascii. Qed.

Lemma is_digit_no_space (c : ascii) :
  Chars.is_digit c = true → ParseInt.is_space c = false.
Proof.
  unfold Chars.is_digit, ParseInt.is_space.
  intros [Hlo Hhi]%andb_true_iff. apply Nat.leb_le in Hlo, Hhi.
  apply orb_false_iff. split; [apply Nat.eqb_neq; lia|].
  apply andb_false_iff. right. apply Nat.leb_gt. lia.
Qed.

Lemma digit_value_range (c : ascii) :
  Chars.is_digit c = true → (0 ≤ Chars.digit_value c ≤ 9)%Z.
Proof.
  unfold Chars.is_digit, Chars.digit_value.
  intros [Hlo Hhi]%andb_true_iff. apply Nat.leb_le in Hlo, Hhi. lia.
Qed.

Lemma digit_value_inj (c d : ascii) :
  Chars.digit_value c = Chars.digit_value d → c = d.
Proof.
  unfold Chars.digit_value. intros Heq.
  assert (nat_of_ascii c = nat_of_ascii d) as Hn by lia.
  rewrite <- (ascii_nat_embedding c), <- (ascii_nat_embedding d). by rewrite Hn.
Qed.

(** ** Card numbers *)

Lemma luhn_sum_change (x y : list Z) (isEven : bool) (d d' : Z) :
  ∃ k, (luhn_sum isEven (x ++ d :: y) - luhn_sum isEven (x ++ d' :: y)
        = luhn_weight k d - luhn_weight k d')%Z.
Proof.
  revert isEven. induction x as [|a x IH]; intros isEven; simpl.
  - exists isEven. unfold luhn_weight. lia.
  - destruct (IH (negb isEven)) as (k & Hk). exists k. lia.
Qed.

Lemma luhn_weight_distinct (k : bool) (d d' : Z) :
  (0 ≤ d ≤ 9)%Z → (0 ≤ d' ≤ 9)%Z →
  ((luhn_weight k d - luhn_weight k d') mod 10 = 0)%Z → d = d'.
Proof.
  unfold luhn_weight. intros Hd Hd'.
  destruct k; cbv beta iota.
  - destruct (Z.ltb_spec 9 (d * 2)), (Z.ltb_spec 9 (d' * 2));
      intros Hmod; Z.div_mod_to_equations; lia.
  - intros Hmod. Z.div_mod_to_equations. lia.
Qed.

(** A card number is accepted only if, spaces apart, it consists of 13 to
    19 digits. *)
Theorem isValidCardNumber_shape (cardNumber : string) :
  isValidCardNumber cardNumber = true →
  let cleaned := Chars.without_spaces (Chars.of_string cardNumber) in
  Forall (λ c, Chars.is_digit c = true) cleaned
  ∧ (13 ≤ length cleaned ≤ 19)%nat
  ∧ Forall (λ c, Chars.is_digit c = true ∨ ParseInt.is_space c = true)
           (Chars.of_string cardNumber).
Proof.
  unfold isValidCardNumber. cbv zeta.
  set (cleaned := Chars.without_spaces (Chars.of_string cardNumber)).
  destruct (forallb Chars.is_digit cleaned) eqn:Hdigits; [|done].
  destruct (Nat.leb 13 (length cleaned)) eqn:H13; [|done].
  destruct (Nat.leb (length cleaned) 19) eqn:H19; [|done].
  intros _. apply Nat.leb_le in H13, H19.
  pose proof (proj1 (forallb_forall _ _) Hdigits) as Hall.
  repeat split; try done.
  - apply List.Forall_forall. exact Hall.
  - apply List.Forall_forall. intros c Hc.
    destruct (ParseInt.is_space c) eqn:Hspace; [by right | left].
    apply Hall. apply filter_In. by rewrite Hspace.
Qed.

Lemma isValidCardNumber_shape_witness :
  (13 ≤ length (Chars.without_spaces (Chars.of_string "4111 1111 1111 1111")) ≤ 19)%nat.
Proof.
  apply (isValidCardNumber_shape "4111 1111 1111 1111"). reflexivity.
Defined.

(** The check catches every single wrong digit: if a card number is
    accepted, the number that differs from it in exactly one digit is
    refused. *)
Theorem isValidCardNumber_single_digit (before after : list ascii) (d d' : ascii) :
  Chars.is_digit d = true → Chars.is_digit d' = true → d ≠ d' →
  isValidCardNumber (Chars.text (before ++ d :: after)) = true →
  isValidCardNumber (Chars.text (before ++ d' :: after)) = false.
Proof.
  intros Hd Hd' Hne. unfold isValidCardNumber. rewrite !of_string_text.
  unfold Chars.without_spaces. rewrite !List.filter_app. simpl.
  rewrite !is_digit_no_space by done. simpl.
  set (A := List.filter _ before). set (B := List.filter _ after).
  rewrite !forallb_app, !length_app. simpl. rewrite Hd, Hd'.
  match goal with
  | |- (if ?shape then _ else _) = true → _ => destruct shape; [done|]
  end.
  rewrite !map_app, !rev_app_distr. simpl. rewrite <- !app_assoc. simpl.
  intros Hvalid%Z.eqb_eq. apply Z.eqb_neq. intros Hother.
  destruct (luhn_sum_change (rev (map Chars.digit_value B)) (rev (map Chars.digit_value A))
              false (Chars.digit_value d) (Chars.digit_value d')) as (k & Hk).
  apply Hne, digit_value_inj.
  apply (luhn_weight_distinct k); [by apply digit_value_range..|].
  rewrite <- Hk. Z.div_mod_to_equations. lia.
Qed.

Lemma isValidCardNumber_single_digit_witness :
  isValidCardNumber "4111 1111 1111 1112" = false.
Proof.
  apply (isValidCardNumber_single_digit
           (Chars.of_string "4111 1111 1111 111") [] "1"%char "2"%char);
    [reflexivity | reflexivity | discriminate | reflexivity].
Defined.

(** ** Card number and expiry date fields *)

Lemma length_text (l : list ascii) : String.length (Chars.text l) = length l.
Proof. induction l as [|c l IH]; simpl; [done | by rewrite IH]. Qed.

Lemma list_ind4 {A} (P : list A → Prop) :
  P [] → (∀ a, P [a]) → (∀ a b, P [a; b]) → (∀ a b c, P [a; b; c]) →
  (∀ a b c d rest, P rest → P (a :: b :: c :: d :: rest)) →
  ∀ l, P l.
Proof.
  intros H0 H1 H2 H3 H4 l.
  assert (P l ∧ (∀ a, P (a :: l)) ∧ (∀ a b, P (a :: b :: l))
          ∧ (∀ a b c, P (a :: b :: c :: l))) as [Hl _].
  { induction l as [|x l (IH0 & IH1 & IH2 & IH3)]; [by repeat split|].
    repeat split; auto. }
  exact Hl.
Qed.

Lemma cap16_take (v : list ascii) :
  (if Nat.ltb 16 (length v) then take 16 v else v) = take 16 v.
Proof.
  destruct (Nat.ltb_spec 16 (length v)); [done|].
  symmetry. apply take_ge. lia.
Qed.

Lemma grouped_spaced (v : list ascii) :
  match Chars.group4 v with
  | [] => v
  | groups => Chars.spaced groups
  end = Chars.spaced (Chars.group4 v).
Proof. by destruct v as [|a [|b [|c [|d rest]]]]. Qed.

Lemma spaced_cons (g : list ascii) (groups : list (list ascii)) :
  Chars.spaced (g :: groups)
  = (g ++ match groups with [] => [] | _ => " "%char :: Chars.spaced groups end)%list.
Proof. destruct groups; simpl; [by rewrite app_nil_r | done]. Qed.

Lemma without_spaces_spaced (groups : list (list ascii)) :
  Chars.without_spaces (Chars.spaced groups) = Chars.without_spaces (concat groups).
Proof.
  unfold Chars.without_spaces.
  induction groups as [|g groups IH]; [done|].
  rewrite spaced_cons. simpl concat. rewrite !List.filter_app. f_equal.
  destruct groups; [done|]. exact IH.
Qed.

Lemma concat_group4 (v : list ascii) : concat (Chars.group4 v) = v.
Proof.
  induction v as [| | | |a b c d rest IH] using list_ind4; try done.
  simpl. by rewrite IH.
Qed.

Lemma length_group4 (v : list ascii) :
  (4 * length (Chars.group4 v) ≤ length v + 3)%nat.
Proof.
  induction v as [| | | |a b c d rest IH] using list_ind4; simpl in *; lia.
Qed.

Lemma length_spaced (groups : list (list ascii)) :
  (length (Chars.spaced groups) ≤ length (concat groups) + pred (length groups))%nat.
Proof.
  induction groups as [|g groups IH]; [done|].
  rewrite spaced_cons. simpl concat. rewrite !length_app.
  destruct groups; simpl in *; lia.
Qed.

Lemma without_spaces_idem (l : list ascii) :
  Chars.without_spaces (Chars.without_spaces l) = Chars.without_spaces l.
Proof. apply filter_idem. Qed.

Lemma forallb_take {A} (f : A → bool) (n : nat) (l : list A) :
  forallb f l = true → forallb f (take n l) = true.
Proof.
  revert l. induction n as [|n IH]; intros [|a l]; simpl; try done.
  intros [-> Hl]%andb_true_iff. by apply IH.
Qed.

Lemma without_spaces_take (n : nat) (l : list ascii) :
  Chars.without_spaces (take n (Chars.without_spaces l)) = take n (Chars.without_spaces l).
Proof.
  apply forallb_filter_id, forallb_take, forallb_filter.
Qed.

(** [formatCardNumber] keeps the first sixteen characters that are no
    spaces, in their order, and only sets spaces between them; its result
    is at most nineteen characters long; and formatting a formatted number
    again changes nothing. *)
Theorem formatCardNumber_normalises (cardNumber : string) :
  Chars.without_spaces (Chars.of_string (formatCardNumber cardNumber))
  = take 16 (Chars.without_spaces (Chars.of_string cardNumber))
  ∧ (String.length (formatCardNumber cardNumber) ≤ 19)%nat
  ∧ formatCardNumber (formatCardNumber cardNumber) = formatCardNumber cardNumber.
Proof.
  assert (∀ s, Chars.without_spaces (Chars.of_string (formatCardNumber s))
               = take 16 (Chars.without_spaces (Chars.of_string s))) as Hkept.
  { intros s. unfold formatCardNumber.
    rewrite cap16_take, grouped_spaced, of_string_text.
    by rewrite without_spaces_spaced, concat_group4, without_spaces_take. }
  split; [apply Hkept|]. split.
  - unfold formatCardNumber. rewrite cap16_take, grouped_spaced, length_text.
    set (v := take 16 _).
    assert (length v ≤ 16)%nat by apply firstn_le_length.
    pose proof (length_spaced (Chars.group4 v)) as Hs.
    pose proof (length_group4 v) as Hg.
    rewrite concat_group4 in Hs. lia.
  - unfold formatCardNumber at 1. rewrite Hkept.
    unfold formatCardNumber. by rewrite !cap16_take, take_idemp.
Qed.




(** ** Passwords and file names *)

Lemma of_string_app (s t : string) :
  Chars.of_string (s ++ t) = (Chars.of_string s ++ Chars.of_string t)%list.
Proof. induction s as [|c s IH]; simpl; [done | by rewrite IH]. Qed.

Lemma validatePassword_valid (password : string) :
  fst (validatePassword password) = true
  ↔ (8 ≤ length (Chars.of_string password))%nat
    ∧ existsb Chars.is_upper (Chars.of_string password) = true
    ∧ existsb Chars.is_lower (Chars.of_string password) = true
    ∧ existsb Chars.is_digit (Chars.of_string password) = true.
Proof.
  unfold validatePassword.
  destruct (Nat.ltb_spec (length (Chars.of_string password)) 8);
    [simpl; split; [done | lia]|].
  destruct (existsb Chars.is_upper _), (existsb Chars.is_lower _),
    (existsb Chars.is_digit _); simpl; split; try done; tauto.
Qed.

(** A password that passes [validatePassword] still passes with anything
    put before or after it, and the message says "Strong password" exactly
    for the passwords that pass. *)
Theorem validatePassword_extends (password more : string) :
  (fst (validatePassword password) = true →
   fst (validatePassword (password ++ more)) = true
   ∧ fst (validatePassword (more ++ password)) = true)
  ∧ (snd (validatePassword password) = "Strong password"
     ↔ fst (validatePassword password) = true).
Proof.
  split.
  - rewrite !validatePassword_valid, !of_string_app, !length_app, !existsb_app.
    intros (Hlen & -> & -> & ->). rewrite !orb_true_r. repeat split; try done; lia.
  - unfold validatePassword.
    destruct (Nat.ltb _ 8); [done|].
    destruct (existsb Chars.is_upper _); [|done].
    destruct (existsb Chars.is_lower _); [|done].
    by destruct (existsb Chars.is_digit _).
Qed.

Lemma validatePassword_extends_witness :
  fst (validatePassword ("Passw0rd" ++ "!!")) = true
  ∧ fst (validatePassword ("!!" ++ "Passw0rd")) = true.
Proof. by apply validatePassword_extends. Defined.

Lemma split_nonempty (sep : ascii) (s : string) : Str.split sep s ≠ [].
Proof.
  destruct s as [|c s]; simpl; [done|].
  destruct (Ascii.eqb c sep); [done|]. by destruct (Str.split sep s).
Qed.

Lemma split_no_separator (sep : ascii) (s : string) :
  sep ∉ Chars.of_string s → Str.split sep s = [s].
Proof.
  induction s as [|c s IH]; simpl; [done|].
  intros Hnot. apply not_elem_of_cons in Hnot as [Hne Hrest].
  destruct (Ascii.eqb_spec c sep); [congruence|].
  by rewrite (IH Hrest).
Qed.

Lemma split_after_separator (sep : ascii) (base rest : string) :
  ∃ first others,
    Str.split sep (base ++ String sep rest) = (first :: others ++ Str.split sep rest)%list.
Proof.
  induction base as [|c base (first & others & IH)]; simpl.
  - rewrite Ascii.eqb_refl. by exists EmptyString, [].
  - destruct (Ascii.eqb c sep).
    + exists EmptyString, (first :: others). by rewrite IH.
    + rewrite IH. by exists (String c first), others.
Qed.

(** [isValidFileType] judges a file by what follows the last dot of its
    name, whatever the case of the letters; a name without a dot is taken
    whole as its own extension. *)
Theorem isValidFileType_last_extension (base extension : string)
    (allowedTypes : list string) :
  "."%char ∉ Chars.of_string extension →
  isValidFileType (base ++ String "."%char extension) allowedTypes
  = existsb (String.eqb (Str.toLowerCase extension)) allowedTypes
  ∧ isValidFileType extension allowedTypes
    = existsb (String.eqb (Str.toLowerCase extension)) allowedTypes.
Proof.
  intros Hnodot. unfold isValidFileType.
  destruct (split_after_separator "."%char base extension) as (first & others & ->).
  rewrite split_no_separator by done. split; [|done].
  rewrite app_comm_cons, last_last. done.
Qed.

Lemma isValidFileType_last_extension_witness :
  isValidFileType ("report.pdf" ++ String "."%char "EXE") ["pdf"; "png"] = false
  ∧ isValidFileType "EXE" ["pdf"; "png"] = false.
Proof.
  apply (isValidFileType_last_extension "report.pdf" "EXE").
  rewrite list_elem_of_In. simpl. intuition discriminate.
Defined.
